(** * Honey quality pipeline: rule-based scoring, classification,
      validation, batch orchestration and alerting.

    A shallow embedding of the decision logic of [src/industrial_etl.py],
    [src/unified_powerbi_generator.py], [src/powerbi_integration.py],
    [src/monitoring_system.py] and of the report line of
    [src/industrial_pipeline.py].

    Numbers: Python's [float] and numpy's [float64] are IEEE 754 binary64,
    which is what Rocq's primitive [float] is; [<=], [>=], [<], [>], [-] and
    [abs] are the primitive operations, so NaN and the infinities behave as
    they do in the interpreter.

    Mappings ([dict], a row [pd.Series]) are [gmap string _]; a subscript on
    an absent key raises [KeyError].  Exceptions are represented by their
    [str(e)], which is all the code ever reads of them. *)

From Stdlib Require Import Floats ZArith QArith Lia List.
From Corelib Require PosDef.
From stdpp Require Import gmap strings.

(* ===================================================================== *)
(** ** The Python runtime the sources rely on *)
(* ===================================================================== *)

Module Py.

(** Outcome of a Python expression: a value, or a raised [Exception]
    carrying [str(e)]. *)
Inductive exc (A : Type) : Type :=
| Ok (a : A)
| Raise (e : string).
Arguments Ok {A} a.
Arguments Raise {A} e.

#[global] Instance exc_ret : MRet exc := fun A a => Ok a.
#[global] Instance exc_bind : MBind exc := fun A B f m =>
  match m with
  | Ok a => f a
  | Raise e => Raise e
  end.
#[global] Instance exc_fmap : FMap exc := fun A B f m =>
  match m with
  | Ok a => Ok (f a)
  | Raise e => Raise e
  end.

(** [repr] of a string key, as [str(KeyError(k))] prints it. *)
Definition repr_str (k : string) : string := "'" +:+ k +:+ "'".

(** [repr] of a list of strings. *)
Definition repr_list (ks : list string) : string :=
  "[" +:+ String.concat ", " (map repr_str ks) +:+ "]".

(** [d[k]] on a mapping. *)
Definition getitem {V : Type} (d : gmap string V) (k : string) : exc V :=
  match d !! k with
  | Some v => Ok v
  | None => Raise (repr_str k)
  end.

(** [k in d]. *)
Definition contains {V : Type} (k : string) (d : gmap string V) : bool :=
  bool_decide (is_Some (d !! k)).

(** [s.endswith(suffix)]. *)
Definition endswith (s suffix : string) : bool :=
  let n := String.length s in
  let m := String.length suffix in
  (m <=? n)%nat && String.eqb (String.substring (n - m) m s) suffix.

(** [max(a, b)] on two floats: the first argument is kept unless the
    second compares strictly greater. *)
Definition max (a b : float) : float :=
  if PrimFloat.ltb a b then b else a.

(** [x >= y] and [x > y] are the mirrored primitive comparisons. *)
Definition ge (x y : float) : bool := PrimFloat.leb y x.
Definition gt (x y : float) : bool := PrimFloat.ltb y x.

(** [pd.isna] on a float cell. *)
Definition isna (x : float) : bool := negb (PrimFloat.eqb x x).

(** A row handed to a scoring function: a [pd.Series] indexed by column
    name. *)
Abbreviation Series := (gmap string float).

End Py.
Import Py.

Declare Scope py_scope.
Delimit Scope py_scope with py.
Notation "x <= y" := (PrimFloat.leb x y) : py_scope.
Notation "x < y" := (PrimFloat.ltb x y) : py_scope.
Notation "x >= y" := (Py.ge x y) : py_scope.
Notation "x > y" := (Py.gt x y) : py_scope.
Notation "x - y" := (PrimFloat.sub x y) : py_scope.

(* ===================================================================== *)
(** ** [unified_powerbi_generator.py]: fixed-threshold scoring and
       classification *)
(* ===================================================================== *)

Module Unified.
Local Open Scope float_scope.

(** [UnifiedPowerBIGenerator._calculate_quality_score] *)
Definition _calculate_quality_score (row : Series) : exc float :=
  let score := 100 in
  (* Moisture scoring (target: 17.5%) *)
  moisture ← getitem row "moisture";
  let moisture_dev := abs (moisture - 17.5) in
  let score :=
    if (moisture_dev <= 1.0)%py then score - 0
    else if (moisture_dev <= 2.0)%py then score - 5
    else if (moisture_dev <= 3.0)%py then score - 10
    else score - 20 in
  (* pH scoring (target: 5.0) *)
  ph ← getitem row "ph";
  let ph_dev := abs (ph - 5.0) in
  let score :=
    if (ph_dev <= 0.5)%py then score - 0
    else if (ph_dev <= 1.0)%py then score - 5
    else if (ph_dev <= 1.5)%py then score - 10
    else score - 20 in
  (* Diastase activity scoring (min: 8.0) *)
  activity ← getitem row "diastase_activity";
  let score :=
    if (activity >= 8.0)%py then score - 0
    else if (activity >= 6.0)%py then score - 5
    else score - 15 in
  (* HMF scoring (max: 40.0) *)
  hmf ← getitem row "h_m_f";
  let score :=
    if (hmf <= 40.0)%py then score - 0
    else if (hmf <= 50.0)%py then score - 5
    else score - 15 in
  Ok (Py.max 0.0 score).

(** [UnifiedPowerBIGenerator._categorize_quality] *)
Definition _categorize_quality (score : float) : string :=
  if (score >= 95)%py then "Premium"
  else if (score >= 90)%py then "Excellent"
  else if (score >= 80)%py then "Good"
  else if (score >= 70)%py then "Fair"
  else "Poor".

(** [UnifiedPowerBIGenerator._get_compliance_status] *)
Definition _get_compliance_status (score : float) : string :=
  if (score >= 80)%py then "Compliant"
  else if (score >= 70)%py then "Warning"
  else "Non-Compliant".

End Unified.

(* ===================================================================== *)
(** ** [industrial_etl.py]: configurable rules, validation and scoring *)
(* ===================================================================== *)

Module ETL.
Local Open Scope float_scope.

(** [ETLConfig.business_rules : Dict[str, Dict[str, float]]] *)
Abbreviation Rules := (gmap string (gmap string float)).

(** [rules[p][k]] *)
Definition rule (rules : Rules) (p k : string) : exc float :=
  r ← getitem rules p; getitem r k.

(** The built-in rule set of [_load_config]'s fallback branch. *)
Definition default_business_rules : Rules :=
  {[ "moisture" := {[ "min" := 15.0; "max" := 20.0 ]};
     "ph" := {[ "min" := 3.5; "max" := 6.5 ]};
     "diastase_activity" := {[ "min" := 8.0 ]};
     "h_m_f" := {[ "max" := 40.0 ]} ]}.

(** The four blocks of [_calculate_quality_score], each taking the running
    score to the running score. *)
Definition score_moisture (rules : Rules) (row : Series) (score : float) : exc float :=
  if contains "moisture" rules then
    moisture ← getitem row "moisture";
    min_val ← rule rules "moisture" "min";
    max_val ← rule rules "moisture" "max";
    Ok (if (min_val <= moisture)%py && (moisture <= max_val)%py then score - 0
        else if (min_val - 1 <= moisture)%py && (moisture <= max_val + 1)%py then score - 5
        else score - 15)
  else Ok score.

Definition score_ph (rules : Rules) (row : Series) (score : float) : exc float :=
  if contains "ph" rules then
    ph ← getitem row "ph";
    min_val ← rule rules "ph" "min";
    max_val ← rule rules "ph" "max";
    Ok (if (min_val <= ph)%py && (ph <= max_val)%py then score - 0
        else if (min_val - 0.5 <= ph)%py && (ph <= max_val + 0.5)%py then score - 5
        else score - 15)
  else Ok score.

Definition score_diastase (rules : Rules) (row : Series) (score : float) : exc float :=
  if contains "diastase_activity" rules then
    activity ← getitem row "diastase_activity";
    min_val ← rule rules "diastase_activity" "min";
    Ok (if (activity >= min_val)%py then score - 0
        else if (activity >= min_val - 2)%py then score - 5
        else score - 15)
  else Ok score.

Definition score_hmf (rules : Rules) (row : Series) (score : float) : exc float :=
  if contains "h_m_f" rules then
    hmf ← getitem row "h_m_f";
    max_val ← rule rules "h_m_f" "max";
    Ok (if (hmf <= max_val)%py then score - 0
        else if (hmf <= max_val + 10)%py then score - 5
        else score - 15)
  else Ok score.

(** The running score just before the final [max(0.0, score)]. *)
Definition raw_quality_score (rules : Rules) (row : Series) : exc float :=
  score ← score_moisture rules row 100.0;
  score ← score_ph rules row score;
  score ← score_diastase rules row score;
  score_hmf rules row score.

(** [IndustrialETLProcessor._calculate_quality_score] *)
Definition _calculate_quality_score (rules : Rules) (row : Series) : exc float :=
  score ← raw_quality_score rules row;
  Ok (Py.max 0.0 score).

(** [IndustrialETLProcessor._categorize_quality] *)
Definition _categorize_quality (score : float) : string :=
  if (score >= 90)%py then "Excellent"
  else if (score >= 80)%py then "Good"
  else if (score >= 70)%py then "Fair"
  else "Poor".

(** *** Frames *)

(** A [pd.DataFrame] with float columns: the column index and the rows.
    A cell that a row does not hold is NaN, as in pandas. *)
Record DataFrame := {
  columns : list string;
  rows : list Series
}.

Definition cell (r : Series) (c : string) : float := default nan (r !! c).

(** [data[c]]: selecting a column that the frame does not have raises
    [KeyError(c)]. *)
Definition column (data : DataFrame) (c : string) : exc unit :=
  if bool_decide (c ∈ columns data) then Ok tt else Raise (repr_str c).

(** [data[mask]] for a row-wise boolean mask. *)
Definition select (keep : Series → bool) (data : DataFrame) : DataFrame :=
  {| columns := columns data; rows := filter (λ r, keep r = true) (rows data) |}.

(** [data.dropna(subset=...)]: labels missing from the column index raise
    [KeyError] with the list of them; otherwise the rows with a NaN in one
    of the columns go. *)
Definition dropna (subset : list string) (data : DataFrame) : exc DataFrame :=
  let missing := filter (λ c, c ∉ columns data) subset in
  match missing with
  | [] => Ok (select (λ r, forallb (λ c, negb (isna (cell r c))) subset) data)
  | _ => Raise (repr_list missing)
  end.

(** [data.shape] *)
Definition shape (data : DataFrame) : nat * nat :=
  (length (rows data), length (columns data)).

(** The four blocks of [_apply_business_rules], each taking the frame to
    the filtered frame. *)
Definition validate_moisture (rules : Rules) (data : DataFrame) : exc DataFrame :=
  if contains "moisture" rules then
    column data "moisture";;
    min_val ← rule rules "moisture" "min";
    max_val ← rule rules "moisture" "max";
    Ok (select (λ r, (cell r "moisture" >= min_val)%py &&
                     (cell r "moisture" <= max_val)%py) data)
  else Ok data.

Definition validate_ph (rules : Rules) (data : DataFrame) : exc DataFrame :=
  if contains "ph" rules then
    column data "ph";;
    min_val ← rule rules "ph" "min";
    max_val ← rule rules "ph" "max";
    Ok (select (λ r, (cell r "ph" >= min_val)%py &&
                     (cell r "ph" <= max_val)%py) data)
  else Ok data.

Definition validate_diastase (rules : Rules) (data : DataFrame) : exc DataFrame :=
  if contains "diastase_activity" rules then
    column data "diastase_activity";;
    min_val ← rule rules "diastase_activity" "min";
    Ok (select (λ r, (cell r "diastase_activity" >= min_val)%py) data)
  else Ok data.

Definition validate_hmf (rules : Rules) (data : DataFrame) : exc DataFrame :=
  if contains "h_m_f" rules then
    column data "h_m_f";;
    max_val ← rule rules "h_m_f" "max";
    Ok (select (λ r, (cell r "h_m_f" <= max_val)%py) data)
  else Ok data.

(** [IndustrialETLProcessor._apply_business_rules] *)
Definition _apply_business_rules (rules : Rules) (data : DataFrame) : exc DataFrame :=
  data ← validate_moisture rules data;
  data ← validate_ph rules data;
  data ← validate_diastase rules data;
  data ← validate_hmf rules data;
  Ok data.

(** A row of the transformed frame: the input cells and the three derived
    columns [quality_score], [quality_category], [processed_at]. *)
Record ScoredRow := {
  fields : Series;
  quality_score : float;
  quality_category : string;
  processed_at : Z
}.

Record ScoredFrame := {
  scolumns : list string;
  srows : list ScoredRow
}.

(** [data[c] = ...]: a new label is appended to the column index, an
    existing one is overwritten in place. *)
Definition assign (c : string) (cols : list string) : list string :=
  if bool_decide (c ∈ cols) then cols else cols ++ [c].

End ETL.

(* ===================================================================== *)
(** ** The process: wall clock, log, database, cache *)
(* ===================================================================== *)

Module Host.

(** The dictionary [run_etl_pipeline] returns.  The success path and the
    [except] path build it with different keys; an absent key is [None].
    Instants are microseconds on the wall clock; [duration_seconds] is
    [timedelta.total_seconds()] as the exact rational. *)
Record Result := {
  status : string;
  error : option string;
  duration_seconds : Q;
  rows_processed : option nat;
  source_path : option string;
  target_table : option string;
  timestamp : Z
}.

(** What [load_data] caches under [table_metadata:<table>]. *)
Record Metadata := {
  last_updated : Z;
  row_count : nat;
  meta_columns : list string
}.

(** The text of an alert: the fixed part and the observed percentage it
    is formatted with. *)
Record Message := { text : string; observed : float }.

(** An alert dictionary of [_check_performance_alerts]; [type] is a
    keyword here, hence [type_]. *)
Record Alert := {
  type_ : string;
  severity : string;
  message : Message;
  alert_timestamp : Z
}.

(** The value an f-string of a log call interpolates. *)
Inductive LogArg :=
| NoArg
| ShapeArg (shape : nat * nat)
| LoadedArg (table : string) (n_rows : nat)
| ResultArg (result : Result)
| MessageArg (m : Message).

Record LogRecord := { level : string; msg : string; arg : LogArg }.

(** The mutable state a run can touch. *)
Record World := {
  ticks : nat;                                  (* calls of [datetime.now()] so far *)
  log : list LogRecord;                         (* oldest first *)
  tables : gmap string (list ETL.ScoredRow);    (* the database *)
  cache : gmap string (nat * Metadata);         (* Redis: key to (ttl, value) *)
  alerts : list Alert                           (* [MonitoringSystem.alerts] *)
}.

(** The surroundings a run reads: the wall clock ([wall k] is what the
    k-th call of [datetime.now()] returns), the file system as seen by
    pandas, and [psutil]. *)
Record Env := {
  wall : nat → Z;
  read_csv : string → exc ETL.DataFrame;
  read_excel : string → exc ETL.DataFrame;
  PSUTIL_AVAILABLE : bool;
  cpu_percent : exc float;
  virtual_memory_percent : exc float
}.

(** A statement: it may change the world and either yields a value or
    raises. *)
Definition M (A : Type) : Type := World → exc A * World.

#[global] Instance M_ret : MRet M := λ A a w, (Ok a, w).
#[global] Instance M_bind : MBind M := λ A B f m w,
  match m w with
  | (Ok a, w') => f a w'
  | (Raise e, w') => (Raise e, w')
  end.

Definition raise {A : Type} (e : string) : M A := λ w, (Raise e, w).

(** Lifting of an expression without side effects. *)
Definition pure {A : Type} (x : exc A) : M A := λ w, (x, w).

(** [try: body except Exception as e: handler(e)] *)
Definition try_except {A : Type} (body : M A) (handler : string → M A) : M A :=
  λ w, match body w with
       | (Ok a, w') => (Ok a, w')
       | (Raise e, w') => handler e w'
       end.

Section WithEnv.
Variable env : Env.

(** [datetime.now()] *)
Definition now : M Z := λ w,
  (Ok (wall env (ticks w)),
   {| ticks := S (ticks w); log := log w; tables := tables w;
      cache := cache w; alerts := alerts w |}).

Definition logger (lvl : string) (m : string) (a : LogArg) : M unit := λ w,
  (Ok tt,
   {| ticks := ticks w;
      log := log w ++ [{| level := lvl; msg := m; arg := a |}];
      tables := tables w; cache := cache w; alerts := alerts w |}).

End WithEnv.

Definition logger_info := logger "INFO".
Definition logger_warning := logger "WARNING".
Definition logger_error := logger "ERROR".

(** The world a statement leaves behind. *)
Definition after {A : Type} (m : M A) (w : World) : World := (m w).2.

End Host.
Import Host.

(* ===================================================================== *)
(** ** [industrial_etl.py]: the processor's stages and the pipeline *)
(* ===================================================================== *)

Module Processor.

(** A database engine, as far as [to_sql] is concerned: for a table and a
    frame, either the write goes through ([None]) or it raises with the
    given message. *)
Record Engine := { to_sql_raises : string → ETL.ScoredFrame → option string }.

(** A Redis client: [setex] on a key goes through or raises. *)
Record Redis := { setex_raises : string → option string }.

(** The attributes of [IndustrialETLProcessor] the stages read. *)
Record Self := {
  business_rules : ETL.Rules;
  db_engine : option Engine;
  redis_client : option Redis
}.

Section Methods.
Variable env : Env.
Variable self : Self.

(** [IndustrialETLProcessor.extract_data] *)
Definition extract_data (source_path : string) : M ETL.DataFrame :=
  try_except
    (data ← (if endswith source_path ".csv" then
               pure (read_csv env source_path)
             else if endswith source_path ".xlsx" then
               pure (read_excel env source_path)
             else raise ("Unsupported file format: " +:+ source_path));
     logger_info "Data extracted successfully: " (ShapeArg (ETL.shape data));;
     mret data)
    (λ e, logger_error ("Data extraction failed: " +:+ e) NoArg;; raise e).

(** [IndustrialETLProcessor.transform_data].  [data.apply(f, axis=1)]
    calls [f] on the rows in order and the first exception ends it; on a
    frame without rows nothing is scored and the new columns are empty. *)
Definition transform_data (data : ETL.DataFrame) : M ETL.ScoredFrame :=
  try_except
    ((* Data cleaning *)
     data ← pure (ETL.dropna ["moisture"; "ph"; "diastase_activity"; "h_m_f"] data);
     (* Data validation *)
     data ← pure (ETL._apply_business_rules (business_rules self) data);
     (* Quality scoring *)
     scores ← pure (mapM (ETL._calculate_quality_score (business_rules self))
                         (ETL.rows data));
     let categories := map ETL._categorize_quality scores in
     (* Timestamp *)
     t ← now env;
     let data :=
       {| ETL.scolumns :=
            ETL.assign "processed_at"
              (ETL.assign "quality_category"
                 (ETL.assign "quality_score" (ETL.columns data)));
          ETL.srows :=
            zip_with (λ r sc,
                        {| ETL.fields := r;
                           ETL.quality_score := sc.1;
                           ETL.quality_category := sc.2;
                           ETL.processed_at := t |})
                     (ETL.rows data) (zip scores categories) |} in
     logger_info "Data transformation completed: "
       (ShapeArg (length (ETL.srows data), length (ETL.scolumns data)));;
     mret data)
    (λ e, logger_error ("Data transformation failed: " +:+ e) NoArg;; raise e).

(** [data.to_sql(table_name, engine, if_exists='append', ...)] *)
Definition to_sql (data : ETL.ScoredFrame) (table_name : string) (engine : Engine)
  : M unit := λ w,
  match to_sql_raises engine table_name data with
  | Some e => (Raise e, w)
  | None =>
      (Ok tt,
       {| ticks := ticks w; log := log w;
          tables := <[table_name := default [] (tables w !! table_name)
                                      ++ ETL.srows data]> (tables w);
          cache := cache w; alerts := alerts w |})
  end.

(** [redis_client.setex(key, ttl, value)] *)
Definition setex (client : Redis) (key : string) (ttl : nat) (value : Metadata)
  : M unit := λ w,
  match setex_raises client key with
  | Some e => (Raise e, w)
  | None =>
      (Ok tt,
       {| ticks := ticks w; log := log w; tables := tables w;
          cache := <[key := (ttl, value)]> (cache w); alerts := alerts w |})
  end.

(** [IndustrialETLProcessor.load_data] *)
Definition load_data (data : ETL.ScoredFrame) (table_name : string) : M bool :=
  try_except
    (match db_engine self with
     | None =>
         logger_error "Database not available" NoArg;;
         mret false
     | Some engine =>
         (* Load to database *)
         to_sql data table_name engine;;
         (* Cache metadata in Redis *)
         match redis_client self with
         | Some client =>
             let cache_key := "table_metadata:" +:+ table_name in
             t ← now env;
             let metadata :=
               {| last_updated := t;
                  row_count := length (ETL.srows data);
                  meta_columns := ETL.scolumns data |} in
             setex client cache_key 3600 metadata
         | None => mret tt
         end;;
         logger_info "Data loaded successfully to "
           (LoadedArg table_name (length (ETL.srows data)));;
         mret true
     end)
    (λ e, logger_error ("Data loading failed: " +:+ e) NoArg;; mret false).

(** [(end_time - start_time).total_seconds()] *)
Definition total_seconds (start_time end_time : Z) : Q :=
  (end_time - start_time) # 1000000.

(** [IndustrialETLProcessor.run_etl_pipeline] *)
Definition run_etl_pipeline (source_path table_name : string) : M Result :=
  start_time ← now env;
  try_except
    ((* Extract *)
     logger_info "Starting data extraction..." NoArg;;
     data ← extract_data source_path;
     (* Transform *)
     logger_info "Starting data transformation..." NoArg;;
     transformed_data ← transform_data data;
     (* Load *)
     logger_info "Starting data loading..." NoArg;;
     load_success ← load_data transformed_data table_name;
     end_time ← now env;
     let duration := total_seconds start_time end_time in
     let result :=
       {| status := if (load_success : bool) then "success" else "failed";
          error := None;
          duration_seconds := duration;
          rows_processed := Some (length (ETL.srows transformed_data));
          Host.source_path := Some source_path;
          target_table := Some table_name;
          timestamp := end_time |} in
     logger_info "ETL pipeline completed: " (ResultArg result);;
     mret result)
    (λ e,
     end_time ← now env;
     let duration := total_seconds start_time end_time in
     let result :=
       {| status := "failed";
          error := Some e;
          duration_seconds := duration;
          rows_processed := None;
          Host.source_path := None;
          target_table := None;
          timestamp := end_time |} in
     logger_error "ETL pipeline failed: " (ResultArg result);;
     mret result).

End Methods.

(** A fresh process. *)
Definition world0 : World :=
  {| ticks := 0; log := []; tables := ∅; cache := ∅; alerts := [] |}.

End Processor.

(* ===================================================================== *)
(** ** [monitoring_system.py]: alert evaluation *)
(* ===================================================================== *)

Module Monitoring.
Local Open Scope float_scope.

(** [MonitoringConfig] *)
Record MonitoringConfig := {
  enabled : bool;
  metrics_port : Z;
  collect_pipeline_metrics : bool;
  collect_data_quality_metrics : bool;
  collect_performance_metrics : bool;
  alert_thresholds : gmap string float
}.

(** The configuration [_load_config] falls back to. *)
Definition default_config : MonitoringConfig :=
  {| enabled := true;
     metrics_port := 9090%Z;
     collect_pipeline_metrics := true;
     collect_data_quality_metrics := true;
     collect_performance_metrics := true;
     alert_thresholds :=
       {[ "quality_threshold_breach" := 0.1;
          "pipeline_failure" := 0.05;
          "performance_degradation" := 0.2 ]} |}.

Definition cpu_alert (cpu_percent : float) (t : Z) : Alert :=
  {| type_ := "performance_degradation";
     severity := "warning";
     message := {| text := "High CPU usage: "; observed := cpu_percent |};
     alert_timestamp := t |}.

Definition memory_alert (percent : float) (t : Z) : Alert :=
  {| type_ := "performance_degradation";
     severity := "warning";
     message := {| text := "High memory usage: "; observed := percent |};
     alert_timestamp := t |}.

Section Methods.
Variable env : Env.
Variable config : MonitoringConfig.

(** [MonitoringSystem._check_quality_alerts]: the body of its [try] is
    [pass]. *)
Definition _check_quality_alerts : M (list Alert) :=
  try_except (mret [])
    (λ e, logger_error ("Quality alert checking failed: " +:+ e) NoArg;; mret []).

(** [MonitoringSystem._check_performance_alerts].  The source has one
    [try] around both checks and a local list that the [except] branch
    returns as far as it got; only the two [psutil] calls can raise, so
    the handler is written once per call with the list at that point. *)
Definition _check_performance_alerts : M (list Alert) :=
  let failed (alerts : list Alert) (e : string) : M (list Alert) :=
    logger_error ("Performance alert checking failed: " +:+ e) NoArg;;
    mret alerts in
  if PSUTIL_AVAILABLE env then
    try_except
      ((* CPU usage alert *)
       cpu ← pure (cpu_percent env);
       alerts ← (if (cpu > 80)%py
                 then t ← now env; mret [cpu_alert cpu t]
                 else mret []);
       try_except
         ((* Memory usage alert *)
          percent ← pure (virtual_memory_percent env);
          if (percent > 85)%py
          then t ← now env; mret (alerts ++ [memory_alert percent t])
          else mret alerts)
         (failed alerts))
      (failed [])
  else mret [].

(** [self.alerts.extend(alerts)] *)
Definition store_alerts (new : list Alert) : M unit := λ w,
  (Ok tt,
   {| ticks := ticks w; log := log w; tables := tables w; cache := cache w;
      alerts := alerts w ++ new |}).

(** [for alert in alerts: self.logger.warning(...)] *)
Fixpoint log_alerts (l : list Alert) : M unit :=
  match l with
  | [] => mret tt
  | a :: l' =>
      logger_warning "Alert triggered: " (MessageArg (message a));;
      log_alerts l'
  end.

(** [MonitoringSystem.check_alerts] *)
Definition check_alerts : M (list Alert) :=
  let failed (alerts : list Alert) (e : string) : M (list Alert) :=
    logger_error ("Alert checking failed: " +:+ e) NoArg;;
    mret alerts in
  try_except
    ((* Check quality threshold breaches *)
     quality_alerts ← (if collect_data_quality_metrics config
                       then _check_quality_alerts else mret []);
     try_except
       ((* Check performance degradation *)
        performance_alerts ← (if collect_performance_metrics config
                              then _check_performance_alerts else mret []);
        let alerts := quality_alerts ++ performance_alerts in
        (* Store alerts *)
        store_alerts alerts;;
        (* Log alerts *)
        log_alerts alerts;;
        mret alerts)
       (failed quality_alerts))
    (failed []).

End Methods.

(** Whether an alert is the one with the given fixed text. *)
Definition about (txt : string) (a : Alert) : bool :=
  String.eqb (text (message a)) txt.

End Monitoring.

(* ===================================================================== *)
(** ** Well-formedness of the inputs *)
(* ===================================================================== *)

Module Inputs.

(** The four scorable parameters. *)
Definition scorable : list string :=
  ["moisture"; "ph"; "diastase_activity"; "h_m_f"].

(** A record that has a value for each scorable parameter. *)
Definition covered (row : Series) : bool :=
  forallb (λ c, contains c row) scorable.

(** If the rule set has a rule for [p], the rule has the keys [ks]. *)
Definition has_keys (rules : ETL.Rules) (p : string) (ks : list string) : bool :=
  match rules !! p with
  | Some r => forallb (λ k, contains k r) ks
  | None => true
  end.

(** A rule set in which every rule present has the bounds the code reads
    of it: [min] and [max] for moisture and pH, [min] for diastase
    activity, [max] for HMF. *)
Definition complete (rules : ETL.Rules) : bool :=
  has_keys rules "moisture" ["min"; "max"] &&
  has_keys rules "ph" ["min"; "max"] &&
  has_keys rules "diastase_activity" ["min"] &&
  has_keys rules "h_m_f" ["max"].

(** One block of the rule-driven scorer leaves the running score alone
    (no rule for the parameter) or subtracts 0, 5 or 15. *)
Definition block (score score' : float) : Prop :=
  score' = score ∨ (score' = score - 0 ∨ score' = score - 5 ∨ score' = score - 15)%float.

(** Whether the load collaborators accept a frame: there is a database,
    its write does not raise, and the cache, when there is one, takes the
    metadata. *)
Definition load_accepted (self : Processor.Self) (data : ETL.ScoredFrame)
    (table_name : string) : bool :=
  match Processor.db_engine self with
  | None => false
  | Some engine =>
      match Processor.to_sql_raises engine table_name data with
      | Some _ => false
      | None =>
          match Processor.redis_client self with
          | None => true
          | Some client =>
              match Processor.setex_raises client ("table_metadata:" +:+ table_name) with
              | Some _ => false
              | None => true
              end
          end
      end
  end.

(** What a frame and its image under a validation block have in common. *)
Definition narrows (data data' : ETL.DataFrame) : Prop :=
  ETL.columns data' = ETL.columns data ∧
  ETL.rows data' `sublist_of` ETL.rows data.

(** An alert as the performance check emits them. *)
Definition well_formed_alert (a : Alert) : Prop :=
  type_ a = "performance_degradation" ∧ severity a = "warning" ∧
  ((text (message a) = "High CPU usage: " ∧ (observed (message a) > 80)%py = true) ∨
   (text (message a) = "High memory usage: " ∧ (observed (message a) > 85)%py = true)).

(** What [load_data] writes to the error log when the collaborators do not
    accept the frame: that there is no database, or the message of the
    exception the write or the cache raised. *)
Definition load_failure_message (self : Processor.Self) (data : ETL.ScoredFrame)
    (table_name : string) : option string :=
  match Processor.db_engine self with
  | None => Some "Database not available"
  | Some engine =>
      match Processor.to_sql_raises engine table_name data with
      | Some e => Some ("Data loading failed: " +:+ e)
      | None =>
          match Processor.redis_client self with
          | None => None
          | Some client =>
              match Processor.setex_raises client ("table_metadata:" +:+ table_name) with
              | Some e => Some ("Data loading failed: " +:+ e)
              | None => None
              end
          end
      end
  end.

(** A wall clock on which a later reading is a later instant. *)
Definition strictly_increasing (wall : nat → Z) : Prop :=
  ∀ i j : nat, (i < j)%nat → (wall i < wall j)%Z.

(** A block that found its value in range, or had no rule. *)
Definition unpenalised (score score' : float) : Prop :=
  score' = score ∨ (score' = score - 0)%float.

End Inputs.

(* ===================================================================== *)
(** ** Sample records *)
(* ===================================================================== *)

Module Samples.
Local Open Scope float_scope.

(** A record with the given moisture and the other three parameters well
    inside their ranges. *)
Definition record (moisture : float) : Series :=
  {[ "moisture" := moisture; "ph" := 5.0; "diastase_activity" := 10.0;
     "h_m_f" := 20.0 ]}.

(** A record with the four values given. *)
Definition record4 (moisture ph diastase_activity h_m_f : float) : Series :=
  {[ "moisture" := moisture; "ph" := ph;
     "diastase_activity" := diastase_activity; "h_m_f" := h_m_f ]}.

(** A frame with the four scorable columns. *)
Definition frame (rs : list Series) : ETL.DataFrame :=
  {| ETL.columns := Inputs.scorable; ETL.rows := rs |}.

(** A frame with the given columns and no rows, as a file with a header
    line only reads. *)
Definition empty_frame (cols : list string) : ETL.DataFrame :=
  {| ETL.columns := cols; ETL.rows := [] |}.

(** What [transform_data] makes of it. *)
Definition empty_scored (cols : list string) : ETL.ScoredFrame :=
  {| ETL.scolumns :=
       ETL.assign "processed_at"
         (ETL.assign "quality_category" (ETL.assign "quality_score" cols));
     ETL.srows := [] |}.

(** A wall clock that advances by one second from one reading to the
    next, a file system on which every [.csv] path reads as [data], and
    no [psutil]. *)
Definition env_reading (data : exc ETL.DataFrame) : Env :=
  {| wall := λ k, (1000000 * Z.of_nat k)%Z;
     read_csv := λ _, data;
     read_excel := λ _, Raise "No such file or directory";
     PSUTIL_AVAILABLE := false;
     cpu_percent := Raise "psutil";
     virtual_memory_percent := Raise "psutil" |}.

(** The same file system on a wall clock whose readings coincide: the
    clock's resolution is coarser than the run. *)
Definition env_stalled (data : exc ETL.DataFrame) : Env :=
  {| wall := λ _, 0%Z;
     read_csv := λ _, data;
     read_excel := λ _, Raise "No such file or directory";
     PSUTIL_AVAILABLE := false;
     cpu_percent := Raise "psutil";
     virtual_memory_percent := Raise "psutil" |}.

(** A host on which [psutil] reports the given percentages. *)
Definition env_observing (cpu mem : float) : Env :=
  {| wall := λ k, (1000000 * Z.of_nat k)%Z;
     read_csv := λ _, Raise "No such file or directory";
     read_excel := λ _, Raise "No such file or directory";
     PSUTIL_AVAILABLE := true;
     cpu_percent := Ok cpu;
     virtual_memory_percent := Ok mem |}.

(** A host on which the two [psutil] probes answer as given. *)
Definition env_probing (cpu mem : exc float) : Env :=
  {| wall := λ k, (1000000 * Z.of_nat k)%Z;
     read_csv := λ _, Raise "No such file or directory";
     read_excel := λ _, Raise "No such file or directory";
     PSUTIL_AVAILABLE := true;
     cpu_percent := cpu;
     virtual_memory_percent := mem |}.

(** A database that accepts every write, and one that refuses them. *)
Definition accepting : Processor.Engine :=
  {| Processor.to_sql_raises := λ _ _, None |}.
Definition refusing (e : string) : Processor.Engine :=
  {| Processor.to_sql_raises := λ _ _, Some e |}.

(** A cache that refuses every write. *)
Definition cache_down (e : string) : Processor.Redis :=
  {| Processor.setex_raises := λ _, Some e |}.

(** A processor with the built-in rules. *)
Definition processor (db : option Processor.Engine) (redis : option Processor.Redis)
  : Processor.Self :=
  {| Processor.business_rules := ETL.default_business_rules;
     Processor.db_engine := db;
     Processor.redis_client := redis |}.

(** The outcome of a run from a fresh process. *)
Definition outcome (env : Env) (self : Processor.Self) (source_path table_name : string)
  : exc Result :=
  (Processor.run_etl_pipeline env self source_path table_name Processor.world0).1.

(** The log a run from a fresh process leaves. *)
Definition log_of (env : Env) (self : Processor.Self) (source_path table_name : string)
  : list LogRecord :=
  log (Processor.run_etl_pipeline env self source_path table_name Processor.world0).2.

End Samples.

(* ===================================================================== *)
(** ** [powerbi_integration.py]: the sample scorer *)
(* ===================================================================== *)

Module Integration.
Local Open Scope float_scope.

(** [PowerBIIntegration._calculate_sample_quality_score] *)
Definition _calculate_sample_quality_score (row : Series) : exc float :=
  let score := 100.0 in
  (* Moisture scoring *)
  moisture ← getitem row "moisture";
  let score :=
    if (15.0 <= moisture)%py && (moisture <= 20.0)%py then score - 0
    else if (14.0 <= moisture)%py && (moisture <= 21.0)%py then score - 5
    else score - 15 in
  (* pH scoring *)
  ph ← getitem row "ph";
  let score :=
    if (3.5 <= ph)%py && (ph <= 6.5)%py then score - 0
    else if (3.0 <= ph)%py && (ph <= 7.0)%py then score - 5
    else score - 15 in
  (* Diastase activity scoring *)
  activity ← getitem row "diastase_activity";
  let score :=
    if (activity >= 8.0)%py then score - 0
    else if (activity >= 6.0)%py then score - 5
    else score - 15 in
  (* HMF scoring *)
  hmf ← getitem row "h_m_f";
  let score :=
    if (hmf <= 40.0)%py then score - 0
    else if (hmf <= 50.0)%py then score - 5
    else score - 15 in
  Ok (Py.max 0.0 score).

(** [PowerBIIntegration._categorize_sample_quality] *)
Definition _categorize_sample_quality (score : float) : string :=
  if (score >= 90)%py then "Excellent"
  else if (score >= 80)%py then "Good"
  else if (score >= 70)%py then "Fair"
  else "Poor".

End Integration.

(* ===================================================================== *)
(** ** [industrial_pipeline.py]: what the demo reports of a run *)
(* ===================================================================== *)

Module Demo.

(** [etl_result.get('error', 'Unknown error')] *)
Definition get_error (etl_result : Result) : string :=
  default "Unknown error" (error etl_result).

(** The line [run_demo] prints after step 2. *)
Definition etl_report (etl_result : Result) : string :=
  if String.eqb (status etl_result) "success"
  then "ETL pipeline completed successfully"
  else "ETL pipeline failed: " +:+ get_error etl_result.

End Demo.

(* ===================================================================== *)
(** ** The scoring rule in the specification's words *)
(* ===================================================================== *)

(** Start at 100.0; for each parameter walk its ordered tiers and take the
    penalty of the first tier that applies, the catch-all penalty when none
    does; subtract the four penalties; clamp the result at 0.0 from below.
    A parameter contributes on its own: its penalty is a function of its
    own value (and rule) only.  The tiers of a parameter are written with
    the very tests of the source, so that the comparison with the code is
    about the structure (one running score against 100 minus a sum) and
    not about rounding. *)
Module Tiered.
Local Open Scope float_scope.

(** The penalty of the first tier that applies. *)
Fixpoint first_tier (tiers : list (bool * float)) (catch_all : float) : float :=
  match tiers with
  | [] => catch_all
  | (applies, penalty) :: rest => if applies then penalty else first_tier rest catch_all
  end.

(** [target] with deviation tiers, inclusive (pH and moisture of the
    unified generator). *)
Definition around (target t1 t2 t3 : float) (v : float) : float :=
  let deviation := abs (v - target) in
  first_tier [((deviation <= t1)%py, 0); ((deviation <= t2)%py, 5);
              ((deviation <= t3)%py, 10)] 20.

(** A [min]/[max] range with one tolerance band of width [tol]. *)
Definition within (min_val max_val tol : float) (v : float) : float :=
  first_tier [((min_val <= v)%py && (v <= max_val)%py, 0);
              ((min_val - tol <= v)%py && (v <= max_val + tol)%py, 5)] 15.

(** A minimum with one tolerance band below it. *)
Definition at_least (min_val tol : float) (v : float) : float :=
  first_tier [((v >= min_val)%py, 0); ((v >= min_val - tol)%py, 5)] 15.

(** A maximum with one tolerance band above it. *)
Definition at_most (max_val tol : float) (v : float) : float :=
  first_tier [((v <= max_val)%py, 0); ((v <= max_val + tol)%py, 5)] 15.

(** 100 minus the four penalties, clamped at 0 from below. *)
Definition score (p_moisture p_ph p_diastase p_hmf : float) : float :=
  Py.max 0.0 (100.0 - (p_moisture + p_ph + p_diastase + p_hmf)).

(** The penalties of the unified generator. *)
Definition unified_penalties (row : Series) : float * float * float * float :=
  (around 17.5 1.0 2.0 3.0 (ETL.cell row "moisture"),
   around 5.0 0.5 1.0 1.5 (ETL.cell row "ph"),
   first_tier [((ETL.cell row "diastase_activity" >= 8.0)%py, 0);
               ((ETL.cell row "diastase_activity" >= 6.0)%py, 5)] 15,
   first_tier [((ETL.cell row "h_m_f" <= 40.0)%py, 0);
               ((ETL.cell row "h_m_f" <= 50.0)%py, 5)] 15).

Definition unified_score (row : Series) : float :=
  let '(p_moisture, p_ph, p_diastase, p_hmf) := unified_penalties row in
  score p_moisture p_ph p_diastase p_hmf.

(** The bound [k] of the rule of [p]. *)
Definition bound (rules : ETL.Rules) (p k : string) : float :=
  default nan (rules !! p ≫= λ r, r !! k).

(** The penalties of the ETL processor: a parameter without a rule costs
    nothing. *)
Definition etl_penalties (rules : ETL.Rules) (row : Series)
  : float * float * float * float :=
  (if contains "moisture" rules
   then within (bound rules "moisture" "min") (bound rules "moisture" "max") 1
          (ETL.cell row "moisture")
   else 0,
   if contains "ph" rules
   then within (bound rules "ph" "min") (bound rules "ph" "max") 0.5
          (ETL.cell row "ph")
   else 0,
   if contains "diastase_activity" rules
   then at_least (bound rules "diastase_activity" "min") 2
          (ETL.cell row "diastase_activity")
   else 0,
   if contains "h_m_f" rules
   then at_most (bound rules "h_m_f" "max") 10 (ETL.cell row "h_m_f")
   else 0).

Definition etl_score (rules : ETL.Rules) (row : Series) : float :=
  let '(p_moisture, p_ph, p_diastase, p_hmf) := etl_penalties rules row in
  score p_moisture p_ph p_diastase p_hmf.

End Tiered.

(* ===================================================================== *)
(** * Properties *)
(* ===================================================================== *)

(** ** Order facts about binary64 *)

Section FloatOrder.
Local Open Scope float_scope.

Lemma compare_cont_Eq (p q : positive) :
  PosDef.Pos.compare_cont Eq p q = (p ?= q)%positive.
Proof. reflexivity. Qed.

(** Swapping the arguments of a comparison mirrors its result. *)
Lemma SFcompare_swap (x y : spec_float) :
  SFcompare y x = option_map CompOpp (SFcompare x y).
Proof.
  destruct x as [sx|sx| |sx mx ex], y as [sy|sy| |sy my ey]; simpl;
    try reflexivity;
    try (destruct sx; reflexivity); try (destruct sy; reflexivity);
    try (destruct sx, sy; reflexivity).
  rewrite (compare_cont_Eq mx my), (compare_cont_Eq my mx).
  destruct sx, sy; simpl; try reflexivity; f_equal;
    rewrite (Z.compare_antisym ex ey), (Pos.compare_antisym mx my);
    destruct (ex ?= ey)%Z; simpl; try reflexivity;
    destruct (mx ?= my)%positive; reflexivity.
Qed.

(** Two positive finite numbers with the same exponent: whatever is above
    the one with the larger mantissa is above the other. *)
Lemma SFleb_finite_mono (m1 m2 : positive) (e : Z) (x : spec_float) :
  (m2 <= m1)%positive →
  SFleb (S754_finite false m1 e) x = true →
  SFleb (S754_finite false m2 e) x = true.
Proof.
  intros Hm. unfold SFleb, SFcompare.
  destruct x as [sx|sx| |sx mx ex]; try (intros; assumption).
  destruct sx; [intros; assumption|].
  destruct (e ?= ex)%Z; try (intros; assumption).
  rewrite (compare_cont_Eq m1 mx), (compare_cont_Eq m2 mx).
  destruct (Pos.compare_spec m1 mx) as [H1|H1|H1];
    destruct (Pos.compare_spec m2 mx) as [H2|H2|H2];
    intros H; try reflexivity; try discriminate H; lia.
Qed.

(** A number that compares with something is not NaN, and a number that
    is not NaN compares equal to itself. *)
Lemma SFcompare_refl (x y : spec_float) :
  SFcompare y x ≠ None → SFcompare x x = Some Eq.
Proof.
  destruct x as [sx|sx| |sx mx ex]; simpl.
  - reflexivity.
  - destruct sx; reflexivity.
  - destruct y; simpl; congruence.
  - intros _. rewrite (compare_cont_Eq mx mx), Z.compare_refl, Pos.compare_refl.
    destruct sx; reflexivity.
Qed.

Lemma SFcompare_defined (x y : spec_float) :
  SFcompare x x = Some Eq → SFcompare y y = Some Eq → SFcompare x y ≠ None.
Proof.
  destruct x as [sx|sx| |sx mx ex], y as [sy|sy| |sy my ey]; simpl;
    congruence.
Qed.

(** Away from NaN the order is total: [y < x] is the negation of
    [x <= y]. *)
Lemma ltb_negb_leb (x y : float) :
  (x <=? x) = true → (y <=? y) = true → (y <? x) = negb (x <=? y).
Proof.
  rewrite ltb_spec, !leb_spec. unfold SFleb, SFltb. intros Hx Hy.
  assert (Hxx : SFcompare (Prim2SF x) (Prim2SF x) = Some Eq).
  { apply (SFcompare_refl _ (Prim2SF x)).
    destruct (SFcompare (Prim2SF x) (Prim2SF x)); congruence. }
  assert (Hyy : SFcompare (Prim2SF y) (Prim2SF y) = Some Eq).
  { apply (SFcompare_refl _ (Prim2SF y)).
    destruct (SFcompare (Prim2SF y) (Prim2SF y)); congruence. }
  pose proof (SFcompare_defined _ _ Hxx Hyy) as Hd.
  rewrite (SFcompare_swap (Prim2SF x) (Prim2SF y)).
  destruct (SFcompare (Prim2SF x) (Prim2SF y)) as [[| |]|]; simpl;
    congruence.
Qed.

(** What compares with something compares with itself. *)
Lemma leb_refl_of_leb (x y : float) : (x <=? y) = true → (y <=? y) = true.
Proof.
  rewrite !leb_spec. unfold SFleb. intros H.
  rewrite (SFcompare_refl (Prim2SF y) (Prim2SF x)); [reflexivity|].
  destruct (SFcompare (Prim2SF x) (Prim2SF y)); congruence.
Qed.

(** The cut-offs of the classifiers are 70, 80, 90 and 95, all in
    [[64, 128)], so they share an exponent. *)
Lemma leb_mono_64_128 (a b s : float) :
  (match Prim2SF a, Prim2SF b with
   | S754_finite false ma ea, S754_finite false mb eb =>
       (ea =? eb)%Z && (mb <=? ma)%positive
   | _, _ => false
   end) = true →
  (a <=? s) = true → (b <=? s) = true.
Proof.
  rewrite !leb_spec.
  destruct (Prim2SF a) as [| | |[] ma ea]; try discriminate.
  destruct (Prim2SF b) as [| | |[] mb eb]; try discriminate.
  intros H. apply andb_prop in H as [He Hm].
  apply Z.eqb_eq in He. subst eb. apply Pos.leb_le in Hm.
  apply SFleb_finite_mono. exact Hm.
Qed.

Lemma ge_95_90 (s : float) : (s >= 95)%py = true → (s >= 90)%py = true.
Proof. apply leb_mono_64_128. vm_compute. reflexivity. Qed.

Lemma ge_90_80 (s : float) : (s >= 90)%py = true → (s >= 80)%py = true.
Proof. apply leb_mono_64_128. vm_compute. reflexivity. Qed.

Lemma ge_80_70 (s : float) : (s >= 80)%py = true → (s >= 70)%py = true.
Proof. apply leb_mono_64_128. vm_compute. reflexivity. Qed.

End FloatOrder.

(** ** The classifiers *)

Section Classifier.
Local Open Scope float_scope.

(** The truth values of the four cut-off tests on one score form a
    staircase. *)
Lemma cutoffs_staircase (s : float) :
  ((s >= 95)%py = true → (s >= 90)%py = true) ∧
  ((s >= 90)%py = true → (s >= 80)%py = true) ∧
  ((s >= 80)%py = true → (s >= 70)%py = true).
Proof. split; [apply ge_95_90 | split; [apply ge_90_80 | apply ge_80_70]]. Qed.

(** For a score that is a number, [s < c] is the failure of [s >= c]. *)
Lemma below_cutoff (c s : float) :
  (c <=? c) = true → (0 <=? s) = true → (s < c)%py = negb (s >= c)%py.
Proof.
  intros Hc Hs. apply ltb_negb_leb; [exact Hc|].
  exact (leb_refl_of_leb 0 s Hs).
Qed.

Ltac cutoffs s :=
  destruct (cutoffs_staircase s) as (H95 & H90 & H80);
  destruct (s >= 95)%py; [specialize (H95 eq_refl)|];
  (destruct (s >= 90)%py; [specialize (H90 eq_refl)|]);
  (destruct (s >= 80)%py; [specialize (H80 eq_refl)|]);
  (destruct (s >= 70)%py);
  try discriminate; clear H95 H90 H80.

Ltac labels :=
  simpl; repeat split; intros;
  repeat match goal with
         | H : _ ∧ _ |- _ => destruct H
         | H : _ ∨ _ |- _ => destruct H
         end;
  try discriminate; try reflexivity; auto.

(** C9: in the unified generator the category and the compliance status
    of one score always agree: Premium, Excellent and Good go with
    Compliant, Fair with Warning, Poor with Non-Compliant.  This holds
    for every float, NaN and the infinities included. *)
Theorem category_compliance_coherent (score : float) :
  let category := Unified._categorize_quality score in
  let compliance := Unified._get_compliance_status score in
  ((category = "Premium" ∨ category = "Excellent" ∨ category = "Good")
     ↔ compliance = "Compliant") ∧
  (category = "Fair" ↔ compliance = "Warning") ∧
  (category = "Poor" ↔ compliance = "Non-Compliant").
Proof.
  unfold Unified._categorize_quality, Unified._get_compliance_status.
  cutoffs score; labels.
Qed.

(** C4: on [[0, 100]] both classifiers are step functions with
    inclusive floors.  Each label is returned exactly on its band
    ([floor <= s < next floor]); the bands are pairwise disjoint and
    cover the interval, so every score has exactly one category and
    one compliance value, and a score equal to a floor belongs to the
    band that starts there. *)
Theorem classifiers_total_inclusive (s : float) :
  (0 <= s)%py = true → (s <= 100)%py = true →
  (* categories of the unified generator *)
  (Unified._categorize_quality s = "Premium" ↔ (s >= 95)%py = true) ∧
  (Unified._categorize_quality s = "Excellent"
     ↔ (s >= 90)%py = true ∧ (s < 95)%py = true) ∧
  (Unified._categorize_quality s = "Good"
     ↔ (s >= 80)%py = true ∧ (s < 90)%py = true) ∧
  (Unified._categorize_quality s = "Fair"
     ↔ (s >= 70)%py = true ∧ (s < 80)%py = true) ∧
  (Unified._categorize_quality s = "Poor" ↔ (s < 70)%py = true) ∧
  (* compliance *)
  (Unified._get_compliance_status s = "Compliant" ↔ (s >= 80)%py = true) ∧
  (Unified._get_compliance_status s = "Warning"
     ↔ (s >= 70)%py = true ∧ (s < 80)%py = true) ∧
  (Unified._get_compliance_status s = "Non-Compliant" ↔ (s < 70)%py = true) ∧
  (* categories of the ETL processor *)
  (ETL._categorize_quality s = "Excellent" ↔ (s >= 90)%py = true) ∧
  (ETL._categorize_quality s = "Good"
     ↔ (s >= 80)%py = true ∧ (s < 90)%py = true) ∧
  (ETL._categorize_quality s = "Fair"
     ↔ (s >= 70)%py = true ∧ (s < 80)%py = true) ∧
  (ETL._categorize_quality s = "Poor" ↔ (s < 70)%py = true) ∧
  (* the floors themselves *)
  Unified._categorize_quality 95 = "Premium" ∧
  Unified._categorize_quality 90 = "Excellent" ∧
  Unified._categorize_quality 80 = "Good" ∧
  Unified._categorize_quality 70 = "Fair" ∧
  Unified._get_compliance_status 80 = "Compliant" ∧
  Unified._get_compliance_status 70 = "Warning" ∧
  ETL._categorize_quality 90 = "Excellent" ∧
  ETL._categorize_quality 80 = "Good" ∧
  ETL._categorize_quality 70 = "Fair".
Proof.
  intros H0 H100.
  rewrite (below_cutoff 95 s eq_refl H0), (below_cutoff 90 s eq_refl H0),
    (below_cutoff 80 s eq_refl H0), (below_cutoff 70 s eq_refl H0).
  unfold Unified._categorize_quality, Unified._get_compliance_status,
    ETL._categorize_quality.
  change ((95 >= 95)%py) with true. change ((95 >= 90)%py) with true.
  change ((90 >= 95)%py) with false. change ((90 >= 90)%py) with true.
  change ((90 >= 80)%py) with true.
  change ((80 >= 95)%py) with false. change ((80 >= 90)%py) with false.
  change ((80 >= 80)%py) with true. change ((80 >= 70)%py) with true.
  change ((70 >= 95)%py) with false. change ((70 >= 90)%py) with false.
  change ((70 >= 80)%py) with false. change ((70 >= 70)%py) with true.
  cutoffs s; labels.
Qed.

Lemma classifiers_total_inclusive_witness :
  (0 <= 90)%py = true ∧ (90 <= 100)%py = true ∧
  Unified._categorize_quality 90 = "Excellent".
Proof.
  split; [reflexivity | split; [reflexivity |]].
  exact (proj1 (proj2 (proj2 (proj2 (proj2 (proj2 (proj2 (proj2 (proj2
           (proj2 (proj2 (proj2 (proj2 (proj2
             (classifiers_total_inclusive 90 eq_refl eq_refl))))))))))))))).
Defined.

End Classifier.

(** ** Scoring *)

Section Scoring.
Local Open Scope float_scope.

Lemma contains_true {V : Type} (k : string) (d : gmap string V) :
  contains k d = true → ∃ v, d !! k = Some v.
Proof.
  unfold contains. intros H. apply bool_decide_eq_true_1 in H.
  destruct H as [v Hv]. exists v. exact Hv.
Qed.

Lemma contains_false {V : Type} (k : string) (d : gmap string V) :
  contains k d = false → d !! k = None.
Proof.
  unfold contains. intros H. apply bool_decide_eq_false_1 in H.
  destruct (d !! k) eqn:E; [|reflexivity].
  exfalso. apply H. eauto.
Qed.

Lemma covered_fields (row : Series) :
  Inputs.covered row = true →
  ∃ m p a h, row !! "moisture" = Some m ∧ row !! "ph" = Some p ∧
             row !! "diastase_activity" = Some a ∧ row !! "h_m_f" = Some h.
Proof.
  unfold Inputs.covered, Inputs.scorable. simpl. intros H.
  repeat (apply andb_prop in H as [?%contains_true H]).
  destruct H0 as [m ?], H1 as [p ?], H2 as [a ?], H3 as [h ?].
  exists m, p, a, h. auto.
Qed.

(** Every test of a scoring chain is a boolean; the chains are analysed
    by cases on them, and what is left is closed float arithmetic. *)
Ltac tests :=
  repeat match goal with
         | |- context [if ?b then _ else _] => destruct b
         end.

Ltac block_cases H :=
  unfold getitem, ETL.rule, getitem in H;
  repeat match type of H with
         | context [match ?o with Some _ => _ | None => _ end] =>
             destruct o; cbn [mbind exc_bind] in H; try discriminate H
         end;
  injection H as H; subst; unfold Inputs.block; tests; auto.

Lemma score_moisture_block rules row s s' :
  ETL.score_moisture rules row s = Ok s' → Inputs.block s s'.
Proof.
  unfold ETL.score_moisture. destruct (contains _ _); intros H.
  - block_cases H.
  - left. congruence.
Qed.

Lemma score_ph_block rules row s s' :
  ETL.score_ph rules row s = Ok s' → Inputs.block s s'.
Proof.
  unfold ETL.score_ph. destruct (contains _ _); intros H.
  - block_cases H.
  - left. congruence.
Qed.

Lemma score_diastase_block rules row s s' :
  ETL.score_diastase rules row s = Ok s' → Inputs.block s s'.
Proof.
  unfold ETL.score_diastase. destruct (contains _ _); intros H.
  - block_cases H.
  - left. congruence.
Qed.

Lemma score_hmf_block rules row s s' :
  ETL.score_hmf rules row s = Ok s' → Inputs.block s s'.
Proof.
  unfold ETL.score_hmf. destruct (contains _ _); intros H.
  - block_cases H.
  - left. congruence.
Qed.

(** The running score after the four blocks, as a chain from 100. *)
Lemma raw_quality_score_chain rules row r :
  ETL.raw_quality_score rules row = Ok r →
  ∃ s1 s2 s3, Inputs.block 100 s1 ∧ Inputs.block s1 s2 ∧ Inputs.block s2 s3 ∧ Inputs.block s3 r.
Proof.
  unfold ETL.raw_quality_score. intros H.
  destruct (ETL.score_moisture rules row 100) as [s1|] eqn:E1;
    cbn [mbind exc_bind] in H; [|discriminate H].
  destruct (ETL.score_ph rules row s1) as [s2|] eqn:E2;
    cbn [mbind exc_bind] in H; [|discriminate H].
  destruct (ETL.score_diastase rules row s2) as [s3|] eqn:E3;
    cbn [mbind exc_bind] in H; [|discriminate H].
  exists s1, s2, s3.
  repeat split;
    eauto using score_moisture_block, score_ph_block, score_diastase_block,
      score_hmf_block.
Qed.

Ltac rule_keys Hk :=
  match goal with
  | C : contains _ _ = true |- _ =>
      apply contains_true in C as [? C];
      unfold Inputs.has_keys in Hk; rewrite C in Hk; simpl in Hk;
      unfold ETL.rule, getitem; rewrite C; cbn [mbind exc_bind];
      repeat (apply andb_prop in Hk as [[? ->]%contains_true Hk]);
      cbn [mbind exc_bind]; eauto
  end.

Lemma score_moisture_returns rules row m s :
  row !! "moisture" = Some m →
  Inputs.has_keys rules "moisture" ["min"; "max"] = true →
  ∃ s', ETL.score_moisture rules row s = Ok s'.
Proof.
  intros Hm Hk. unfold ETL.score_moisture, getitem at 1. rewrite Hm.
  cbn [mbind exc_bind].
  destruct (contains "moisture" rules) eqn:C; [rule_keys Hk | eauto].
Qed.

Lemma score_ph_returns rules row m s :
  row !! "ph" = Some m →
  Inputs.has_keys rules "ph" ["min"; "max"] = true →
  ∃ s', ETL.score_ph rules row s = Ok s'.
Proof.
  intros Hm Hk. unfold ETL.score_ph, getitem at 1. rewrite Hm.
  cbn [mbind exc_bind].
  destruct (contains "ph" rules) eqn:C; [rule_keys Hk | eauto].
Qed.

Lemma score_diastase_returns rules row m s :
  row !! "diastase_activity" = Some m →
  Inputs.has_keys rules "diastase_activity" ["min"] = true →
  ∃ s', ETL.score_diastase rules row s = Ok s'.
Proof.
  intros Hm Hk. unfold ETL.score_diastase, getitem at 1. rewrite Hm.
  cbn [mbind exc_bind].
  destruct (contains "diastase_activity" rules) eqn:C; [rule_keys Hk | eauto].
Qed.

Lemma score_hmf_returns rules row m s :
  row !! "h_m_f" = Some m →
  Inputs.has_keys rules "h_m_f" ["max"] = true →
  ∃ s', ETL.score_hmf rules row s = Ok s'.
Proof.
  intros Hm Hk. unfold ETL.score_hmf, getitem at 1. rewrite Hm.
  cbn [mbind exc_bind].
  destruct (contains "h_m_f" rules) eqn:C; [rule_keys Hk | eauto].
Qed.

(** With a complete rule set and a covered record no block raises. *)
Lemma raw_quality_score_returns rules row :
  Inputs.covered row = true → Inputs.complete rules = true →
  ∃ r, ETL.raw_quality_score rules row = Ok r.
Proof.
  intros (m & p & a & h & Hm & Hp & Ha & Hh)%covered_fields Hc.
  unfold Inputs.complete in Hc.
  apply andb_prop in Hc as [Hc K4]. apply andb_prop in Hc as [Hc K3].
  apply andb_prop in Hc as [K1 K2].
  unfold ETL.raw_quality_score.
  destruct (score_moisture_returns rules row m 100 Hm K1) as [s1 ->].
  cbn [mbind exc_bind].
  destruct (score_ph_returns rules row p s1 Hp K2) as [s2 ->].
  cbn [mbind exc_bind].
  destruct (score_diastase_returns rules row a s2 Ha K3) as [s3 ->].
  cbn [mbind exc_bind].
  exact (score_hmf_returns rules row h s3 Hh K4).
Qed.

Ltac chain H :=
  destruct H as (s1 & s2 & s3 & B1 & B2 & B3 & B4);
  unfold Inputs.block in B1, B2, B3, B4;
  destruct B1 as [->|[->|[->| ->]]]; destruct B2 as [->|[->|[->| ->]]];
  destruct B3 as [->|[->|[->| ->]]]; destruct B4 as [->|[->|[->| ->]]].

(** C10: in the ETL processor each of the four checks subtracts at most
    15 (it subtracts 0, 5 or 15, or nothing when the parameter has no
    rule), so whenever a score is returned the total penalty is at most
    60, the score is at least 40, and the closing [max(0.0, score)]
    returns its argument unchanged. *)
Theorem etl_penalty_at_most_60 (rules : ETL.Rules) (row : Series) (r : float) :
  ETL.raw_quality_score rules row = Ok r →
  (∃ s1 s2 s3, Inputs.block 100 s1 ∧ Inputs.block s1 s2 ∧
               Inputs.block s2 s3 ∧ Inputs.block s3 r) ∧
  (100 - r <= 60)%py = true ∧
  (40 <= r)%py = true ∧
  Py.max 0.0 r = r ∧
  ETL._calculate_quality_score rules row = Ok r.
Proof.
  intros H. pose proof (raw_quality_score_chain rules row r H) as Hc.
  split; [exact Hc|].
  unfold ETL._calculate_quality_score. rewrite H. cbn [mbind exc_bind].
  clear H. chain Hc; repeat split; reflexivity.
Qed.

Lemma etl_penalty_at_most_60_witness :
  ETL.raw_quality_score ETL.default_business_rules
    {[ "moisture" := 25; "ph" := 9; "diastase_activity" := 1; "h_m_f" := 90 ]}
  = Ok 40 ∧
  ETL._calculate_quality_score ETL.default_business_rules
    {[ "moisture" := 25; "ph" := 9; "diastase_activity" := 1; "h_m_f" := 90 ]}
  = Ok 40.
Proof.
  assert (H : ETL.raw_quality_score ETL.default_business_rules
                {[ "moisture" := 25; "ph" := 9; "diastase_activity" := 1;
                   "h_m_f" := 90 ]} = Ok 40) by (vm_compute; reflexivity).
  split; [exact H|].
  exact (proj2 (proj2 (proj2 (proj2 (etl_penalty_at_most_60 _ _ _ H))))).
Defined.

(** The rule-driven scorer returns on every covered record under a
    complete rule set, and its result is between 40 and 100. *)
Lemma etl_score_range (rules : ETL.Rules) (row : Series) :
  Inputs.covered row = true → Inputs.complete rules = true →
  ∃ s, ETL._calculate_quality_score rules row = Ok s ∧
       (0 <= s)%py = true ∧ (s <= 100)%py = true.
Proof.
  intros Hr Hc.
  destruct (raw_quality_score_returns rules row Hr Hc) as [r H].
  pose proof (raw_quality_score_chain rules row r H) as Hch.
  unfold ETL._calculate_quality_score. rewrite H. cbn [mbind exc_bind].
  clear H. eexists. split; [reflexivity|].
  chain Hch; split; reflexivity.
Qed.

(** *** The scorers against the tiered rule *)

Lemma cell_Some (row : Series) (c : string) (v : float) :
  row !! c = Some v → ETL.cell row c = v.
Proof. intros H. unfold ETL.cell. rewrite H. reflexivity. Qed.

(** The fixed-threshold scorer computes the tiered score. *)
Lemma unified_score_tiered (row : Series) :
  Inputs.covered row = true →
  Unified._calculate_quality_score row = Ok (Tiered.unified_score row).
Proof.
  intros (m & p & a & h & Hm & Hp & Ha & Hh)%covered_fields.
  unfold Unified._calculate_quality_score, getitem,
    Tiered.unified_score, Tiered.unified_penalties, Tiered.score, Tiered.around.
  rewrite (cell_Some _ _ _ Hm), (cell_Some _ _ _ Hp), (cell_Some _ _ _ Ha),
    (cell_Some _ _ _ Hh), Hm, Hp, Ha, Hh.
  cbn [mbind exc_bind Tiered.first_tier].
  tests; reflexivity.
Qed.

(** A bound that the code can read is the bound of the tiered rule. *)
Lemma rule_bound (rules : ETL.Rules) (p k : string) (ks : list string) :
  contains p rules = true → Inputs.has_keys rules p ks = true → In k ks →
  ETL.rule rules p k = Ok (Tiered.bound rules p k).
Proof.
  intros [r Hr]%contains_true Hk Hin.
  unfold Inputs.has_keys in Hk. rewrite Hr in Hk.
  rewrite forallb_forall in Hk. apply Hk in Hin.
  apply contains_true in Hin as [v Hv].
  unfold ETL.rule, getitem, Tiered.bound. rewrite Hr. simpl. rewrite Hv.
  reflexivity.
Qed.

(** Each block subtracts the penalty of its parameter's first tier. *)
Lemma score_moisture_tiered rules row m s :
  row !! "moisture" = Some m →
  Inputs.has_keys rules "moisture" ["min"; "max"] = true →
  ETL.score_moisture rules row s
  = Ok (if contains "moisture" rules
        then s - Tiered.within (Tiered.bound rules "moisture" "min")
                   (Tiered.bound rules "moisture" "max") 1 m
        else s).
Proof.
  intros Hm Hk. unfold ETL.score_moisture.
  destruct (contains "moisture" rules) eqn:C; [|reflexivity].
  unfold getitem at 1. rewrite Hm. cbn [mbind exc_bind].
  rewrite (rule_bound rules "moisture" "min" _ C Hk) by (simpl; auto).
  rewrite (rule_bound rules "moisture" "max" _ C Hk) by (simpl; auto).
  cbn [mbind exc_bind Tiered.first_tier]. unfold Tiered.within.
  cbn [Tiered.first_tier]. tests; reflexivity.
Qed.

Lemma score_ph_tiered rules row m s :
  row !! "ph" = Some m →
  Inputs.has_keys rules "ph" ["min"; "max"] = true →
  ETL.score_ph rules row s
  = Ok (if contains "ph" rules
        then s - Tiered.within (Tiered.bound rules "ph" "min")
                   (Tiered.bound rules "ph" "max") 0.5 m
        else s).
Proof.
  intros Hm Hk. unfold ETL.score_ph.
  destruct (contains "ph" rules) eqn:C; [|reflexivity].
  unfold getitem at 1. rewrite Hm. cbn [mbind exc_bind].
  rewrite (rule_bound rules "ph" "min" _ C Hk) by (simpl; auto).
  rewrite (rule_bound rules "ph" "max" _ C Hk) by (simpl; auto).
  cbn [mbind exc_bind]. unfold Tiered.within.
  cbn [Tiered.first_tier]. tests; reflexivity.
Qed.

Lemma score_diastase_tiered rules row m s :
  row !! "diastase_activity" = Some m →
  Inputs.has_keys rules "diastase_activity" ["min"] = true →
  ETL.score_diastase rules row s
  = Ok (if contains "diastase_activity" rules
        then s - Tiered.at_least (Tiered.bound rules "diastase_activity" "min") 2 m
        else s).
Proof.
  intros Hm Hk. unfold ETL.score_diastase.
  destruct (contains "diastase_activity" rules) eqn:C; [|reflexivity].
  unfold getitem at 1. rewrite Hm. cbn [mbind exc_bind].
  rewrite (rule_bound rules "diastase_activity" "min" _ C Hk) by (simpl; auto).
  cbn [mbind exc_bind]. unfold Tiered.at_least.
  cbn [Tiered.first_tier]. tests; reflexivity.
Qed.

Lemma score_hmf_tiered rules row m s :
  row !! "h_m_f" = Some m →
  Inputs.has_keys rules "h_m_f" ["max"] = true →
  ETL.score_hmf rules row s
  = Ok (if contains "h_m_f" rules
        then s - Tiered.at_most (Tiered.bound rules "h_m_f" "max") 10 m
        else s).
Proof.
  intros Hm Hk. unfold ETL.score_hmf.
  destruct (contains "h_m_f" rules) eqn:C; [|reflexivity].
  unfold getitem at 1. rewrite Hm. cbn [mbind exc_bind].
  rewrite (rule_bound rules "h_m_f" "max" _ C Hk) by (simpl; auto).
  cbn [mbind exc_bind]. unfold Tiered.at_most.
  cbn [Tiered.first_tier]. tests; reflexivity.
Qed.

(** The rule-driven scorer computes the tiered score. *)
Lemma etl_score_tiered (rules : ETL.Rules) (row : Series) :
  Inputs.covered row = true → Inputs.complete rules = true →
  ETL._calculate_quality_score rules row = Ok (Tiered.etl_score rules row).
Proof.
  intros (m & p & a & h & Hm & Hp & Ha & Hh)%covered_fields Hc.
  unfold Inputs.complete in Hc.
  apply andb_prop in Hc as [Hc K4]. apply andb_prop in Hc as [Hc K3].
  apply andb_prop in Hc as [K1 K2].
  unfold ETL._calculate_quality_score, ETL.raw_quality_score.
  rewrite (score_moisture_tiered rules row m _ Hm K1). cbn [mbind exc_bind].
  rewrite (score_ph_tiered rules row p _ Hp K2). cbn [mbind exc_bind].
  rewrite (score_diastase_tiered rules row a _ Ha K3). cbn [mbind exc_bind].
  rewrite (score_hmf_tiered rules row h _ Hh K4). cbn [mbind exc_bind].
  unfold Tiered.etl_score, Tiered.etl_penalties, Tiered.score.
  rewrite (cell_Some _ _ _ Hm), (cell_Some _ _ _ Hp), (cell_Some _ _ _ Ha),
    (cell_Some _ _ _ Hh).
  unfold Tiered.within, Tiered.at_least, Tiered.at_most.
  cbn [Tiered.first_tier].
  tests; reflexivity.
Qed.

(** C1: for a record that has the four scorable fields (and, for the
    configurable scorer, a rule set whose rules have their bounds) each
    scoring engine returns the tiered score of the record: 100.0 minus the
    penalty of the first applicable tier of each of the four parameters,
    clamped at 0.0 from below.  That score lies in [[0, 100]].  Both
    engines are functions of the record and the rules alone, so two
    evaluations agree. *)
Theorem quality_score_in_range (rules : ETL.Rules) (row : Series) :
  Inputs.covered row = true → Inputs.complete rules = true →
  (ETL._calculate_quality_score rules row = Ok (Tiered.etl_score rules row) ∧
   (0 <= Tiered.etl_score rules row)%py = true ∧
   (Tiered.etl_score rules row <= 100)%py = true) ∧
  (Unified._calculate_quality_score row = Ok (Tiered.unified_score row) ∧
   (0 <= Tiered.unified_score row)%py = true ∧
   (Tiered.unified_score row <= 100)%py = true).
Proof.
  intros Hr Hc. split.
  - pose proof (etl_score_tiered rules row Hr Hc) as He.
    destruct (etl_score_range rules row Hr Hc) as (s & Hs & H0 & H100).
    rewrite He in Hs. injection Hs as <-. auto.
  - pose proof (unified_score_tiered row Hr) as Hu.
    split; [exact Hu|]. clear Hu.
    unfold Tiered.unified_score, Tiered.unified_penalties, Tiered.score,
      Tiered.around.
    cbn [Tiered.first_tier]. tests; split; reflexivity.
Qed.

Lemma quality_score_in_range_witness :
  ETL._calculate_quality_score ETL.default_business_rules
    (Samples.record4 21 7 7 45) = Ok 80 ∧
  Unified._calculate_quality_score (Samples.record4 21 7 7 45) = Ok 50.
Proof.
  destruct (quality_score_in_range ETL.default_business_rules
              (Samples.record4 21 7 7 45)
              ltac:(vm_compute; reflexivity) ltac:(vm_compute; reflexivity))
    as [[He _] [Hu _]].
  rewrite He, Hu. split; vm_compute; reflexivity.
Defined.

(** On every record that has the four fields the fixed-threshold scorer
    returns 100 minus the four penalties as it stands: the penalties add up
    to 70 at most (20 + 20 + 15 + 15), so the score is at least 30 and the
    closing [max(0.0, score)] returns its argument.  Both ends are
    attained. *)
Theorem unified_score_unclamped (row : Series) :
  Inputs.covered row = true →
  (let '(p_moisture, p_ph, p_diastase, p_hmf) := Tiered.unified_penalties row in
   Unified._calculate_quality_score row
     = Ok (100 - (p_moisture + p_ph + p_diastase + p_hmf)) ∧
   (p_moisture + p_ph + p_diastase + p_hmf <= 70)%py = true ∧
   (30 <= 100 - (p_moisture + p_ph + p_diastase + p_hmf))%py = true ∧
   (100 - (p_moisture + p_ph + p_diastase + p_hmf) <= 100)%py = true) ∧
  Unified._calculate_quality_score (Samples.record4 25 9 1 90) = Ok 30 ∧
  Unified._calculate_quality_score (Samples.record4 17.5 5 8 40) = Ok 100.
Proof.
  intros Hr. split; [|split; vm_compute; reflexivity].
  rewrite (unified_score_tiered row Hr).
  unfold Tiered.unified_score, Tiered.unified_penalties, Tiered.score,
    Tiered.around.
  cbn [Tiered.first_tier]. tests; repeat split; reflexivity.
Qed.

Lemma unified_score_unclamped_witness :
  Unified._calculate_quality_score (Samples.record4 19 6.25 7 45) = Ok 75.
Proof.
  pose proof (proj1 (proj1 (unified_score_unclamped (Samples.record4 19 6.25 7 45)
                              ltac:(vm_compute; reflexivity)))) as H.
  rewrite H. vm_compute. reflexivity.
Defined.

End Scoring.

(** ** Validation against scoring *)

Section Validation.
Local Open Scope float_scope.

(** NaN compares with nothing. *)
Lemma leb_nan_r (x : float) : (x <=? nan) = false.
Proof.
  rewrite leb_spec. change (Prim2SF nan) with S754_nan.
  unfold SFleb. destruct (Prim2SF x); reflexivity.
Qed.

Lemma leb_nan_l (x : float) : (nan <=? x) = false.
Proof.
  rewrite leb_spec. change (Prim2SF nan) with S754_nan. reflexivity.
Qed.

(** A cell that passes a bound test holds a value. *)
Lemma cell_ge (r : Series) (c : string) (lo : float) :
  (ETL.cell r c >= lo)%py = true → ∃ v, r !! c = Some v ∧ (lo <= v)%py = true.
Proof.
  unfold ETL.cell, Py.ge. destruct (r !! c) as [v|]; simpl.
  - eauto.
  - rewrite leb_nan_r. discriminate.
Qed.

Lemma cell_le (r : Series) (c : string) (hi : float) :
  (ETL.cell r c <= hi)%py = true → ∃ v, r !! c = Some v ∧ (v <= hi)%py = true.
Proof.
  unfold ETL.cell. destruct (r !! c) as [v|]; simpl.
  - eauto.
  - rewrite leb_nan_l. discriminate.
Qed.

Lemma elem_of_select (keep : Series → bool) (data : ETL.DataFrame) (r : Series) :
  r ∈ ETL.rows (ETL.select keep data) ↔ keep r = true ∧ r ∈ ETL.rows data.
Proof.
  unfold ETL.select. simpl.
  apply (list_elem_of_filter (λ r, keep r = true)).
Qed.

(** What a validation block tells about a row it lets through: the row was
    there before, and the scoring block of the same parameter finds the
    value in range and subtracts nothing. *)
Ltac validated H :=
  unfold ETL.column in H;
  destruct (bool_decide _); cbn [mbind exc_bind] in H; [|discriminate H];
  unfold ETL.rule, getitem in *;
  repeat match type of H with
         | context [match ?o with Some _ => _ | None => _ end] =>
             destruct o; cbn [mbind exc_bind] in H |- *; try discriminate H
         end;
  injection H as <-.

Lemma validate_moisture_keeps rules data data' r s :
  ETL.validate_moisture rules data = Ok data' → r ∈ ETL.rows data' →
  r ∈ ETL.rows data ∧
  ∃ s', ETL.score_moisture rules r s = Ok s' ∧ Inputs.unpenalised s s'.
Proof.
  unfold ETL.validate_moisture, ETL.score_moisture, Inputs.unpenalised.
  destruct (contains "moisture" rules); intros H Hr.
  - validated H. apply elem_of_select in Hr as [Hk Hr]. split; [exact Hr|].
    apply andb_prop in Hk as [(v & Hv & Hlo)%cell_ge (v' & Hv' & Hhi)%cell_le].
    rewrite Hv in *. injection Hv' as <-. cbn [mbind exc_bind].
    rewrite Hlo, Hhi. simpl. eauto.
  - injection H as <-. eauto.
Qed.

Lemma validate_ph_keeps rules data data' r s :
  ETL.validate_ph rules data = Ok data' → r ∈ ETL.rows data' →
  r ∈ ETL.rows data ∧
  ∃ s', ETL.score_ph rules r s = Ok s' ∧ Inputs.unpenalised s s'.
Proof.
  unfold ETL.validate_ph, ETL.score_ph, Inputs.unpenalised.
  destruct (contains "ph" rules); intros H Hr.
  - validated H. apply elem_of_select in Hr as [Hk Hr]. split; [exact Hr|].
    apply andb_prop in Hk as [(v & Hv & Hlo)%cell_ge (v' & Hv' & Hhi)%cell_le].
    rewrite Hv in *. injection Hv' as <-. cbn [mbind exc_bind].
    rewrite Hlo, Hhi. simpl. eauto.
  - injection H as <-. eauto.
Qed.

Lemma validate_diastase_keeps rules data data' r s :
  ETL.validate_diastase rules data = Ok data' → r ∈ ETL.rows data' →
  r ∈ ETL.rows data ∧
  ∃ s', ETL.score_diastase rules r s = Ok s' ∧ Inputs.unpenalised s s'.
Proof.
  unfold ETL.validate_diastase, ETL.score_diastase, Inputs.unpenalised.
  destruct (contains "diastase_activity" rules); intros H Hr.
  - validated H. apply elem_of_select in Hr as [Hk Hr]. split; [exact Hr|].
    apply cell_ge in Hk as (v & Hv & Hlo).
    rewrite Hv. cbn [mbind exc_bind]. unfold Py.ge.
    rewrite Hlo. eauto.
  - injection H as <-. eauto.
Qed.

Lemma validate_hmf_keeps rules data data' r s :
  ETL.validate_hmf rules data = Ok data' → r ∈ ETL.rows data' →
  r ∈ ETL.rows data ∧
  ∃ s', ETL.score_hmf rules r s = Ok s' ∧ Inputs.unpenalised s s'.
Proof.
  unfold ETL.validate_hmf, ETL.score_hmf, Inputs.unpenalised.
  destruct (contains "h_m_f" rules); intros H Hr.
  - validated H. apply elem_of_select in Hr as [Hk Hr]. split; [exact Hr|].
    apply cell_le in Hk as (v & Hv & Hhi).
    rewrite Hv. cbn [mbind exc_bind]. rewrite Hhi. eauto.
  - injection H as <-. eauto.
Qed.

(** Validation only removes rows, and under the rules it was validated
    with a surviving row scores exactly 100. *)
Lemma validated_row rules data data' r :
  ETL._apply_business_rules rules data = Ok data' → r ∈ ETL.rows data' →
  r ∈ ETL.rows data ∧ ETL._calculate_quality_score rules r = Ok 100.
Proof.
  unfold ETL._apply_business_rules. intros H Hr.
  destruct (ETL.validate_moisture rules data) as [d1|] eqn:E1;
    cbn [mbind exc_bind] in H; [|discriminate H].
  destruct (ETL.validate_ph rules d1) as [d2|] eqn:E2;
    cbn [mbind exc_bind] in H; [|discriminate H].
  destruct (ETL.validate_diastase rules d2) as [d3|] eqn:E3;
    cbn [mbind exc_bind] in H; [|discriminate H].
  destruct (ETL.validate_hmf rules d3) as [d4|] eqn:E4;
    cbn [mbind exc_bind] in H; [|discriminate H].
  injection H as <-.
  destruct (validate_hmf_keeps rules d3 d4 r) with (s := 100) as [Hr3 _];
    [assumption..|].
  destruct (validate_diastase_keeps rules d2 d3 r) with (s := 100) as [Hr2 _];
    [assumption..|].
  destruct (validate_ph_keeps rules d1 d2 r) with (s := 100) as [Hr1 _];
    [assumption..|].
  destruct (validate_moisture_keeps rules data d1 r 100 E1 Hr1)
    as (Hr0 & s1 & S1 & U1).
  destruct (validate_ph_keeps rules d1 d2 r s1 E2 Hr2) as (_ & s2 & S2 & U2).
  destruct (validate_diastase_keeps rules d2 d3 r s2 E3 Hr3)
    as (_ & s3 & S3 & U3).
  destruct (validate_hmf_keeps rules d3 d4 r s3 E4 Hr) as (_ & s4 & S4 & U4).
  split; [exact Hr0|].
  unfold ETL._calculate_quality_score, ETL.raw_quality_score.
  rewrite S1. cbn [mbind exc_bind]. rewrite S2. cbn [mbind exc_bind].
  rewrite S3. cbn [mbind exc_bind]. rewrite S4. cbn [mbind exc_bind].
  unfold Inputs.unpenalised in *.
  destruct U1 as [-> | ->], U2 as [-> | ->], U3 as [-> | ->], U4 as [-> | ->];
    reflexivity.
Qed.

Lemma float_lt_irrefl_100 : (100 < 100)%py = false.
Proof. reflexivity. Qed.

(** C3, as the code has it: the validator's hard bounds are the very
    [min]/[max] the scorer treats as the penalty-free range, so a record
    that passes validation scores exactly 100 under the same rules.  The
    5- and 15-point tiers are met only by values outside the hard
    bounds: moisture 20.5 under [[15, 20]] scores 95, and the validator
    drops that record. *)
Theorem validated_record_scores_100
    (rules : ETL.Rules) (data data' : ETL.DataFrame) (r : Series) :
  ETL._apply_business_rules rules data = Ok data' → r ∈ ETL.rows data' →
  ETL._calculate_quality_score rules r = Ok 100 ∧
  ETL._calculate_quality_score ETL.default_business_rules (Samples.record 20.5)
    = Ok 95 ∧
  ETL._apply_business_rules ETL.default_business_rules
    (Samples.frame [Samples.record 20.5]) = Ok (Samples.frame []).
Proof.
  intros H Hr. split; [exact (proj2 (validated_row rules data data' r H Hr))|].
  split; vm_compute; reflexivity.
Qed.

Lemma validated_record_scores_100_witness :
  ETL._apply_business_rules ETL.default_business_rules
    (Samples.frame [Samples.record 15.0; Samples.record 20.5])
    = Ok (Samples.frame [Samples.record 15.0]) ∧
  ETL._calculate_quality_score ETL.default_business_rules (Samples.record 15.0)
    = Ok 100.
Proof.
  assert (H : ETL._apply_business_rules ETL.default_business_rules
                (Samples.frame [Samples.record 15.0; Samples.record 20.5])
              = Ok (Samples.frame [Samples.record 15.0]))
    by (vm_compute; reflexivity).
  split; [exact H|].
  refine (proj1 (validated_record_scores_100 _ _ _ (Samples.record 15.0) H _)).
  simpl. apply list_elem_of_here.
Defined.

(** C3, as the specification has it, fails: no rule set, frame and record
    are such that the record passes validation and scores below 100. *)
Lemma no_validated_record_below_100 :
  ¬ ∃ (rules : ETL.Rules) (data data' : ETL.DataFrame) (r : Series) (s : float),
      ETL._apply_business_rules rules data = Ok data' ∧ r ∈ ETL.rows data' ∧
      ETL._calculate_quality_score rules r = Ok s ∧ (s < 100)%py = true.
Proof.
  intros (rules & data & data' & r & s & H & Hr & Hs & Hlt).
  destruct (validated_row rules data data' r H Hr) as [_ H100].
  rewrite H100 in Hs. injection Hs as <-.
  rewrite float_lt_irrefl_100 in Hlt. discriminate Hlt.
Qed.

(** C5, as the code has it: under the moisture range [[15, 20]] the
    scorer's tiers are 0 inside the range, 5 up to 1.0 outside it
    (inclusive) and 15 beyond.  Moisture 22.0 is 2.0 above the maximum and
    costs 15: with the other parameters ideal the score is 85, category
    "Good", compliance "Compliant".  The 5-point tier ends at 21.0, which
    gives 95, "Excellent", "Compliant".  Either record is outside the
    hard bounds, so validation drops it. *)
Theorem moisture_22_scores_85 :
  ETL.score_moisture ETL.default_business_rules (Samples.record 22.0) 100
    = Ok (100 - 15) ∧
  ETL._calculate_quality_score ETL.default_business_rules (Samples.record 22.0)
    = Ok 85 ∧
  ETL._categorize_quality 85 = "Good" ∧
  Unified._get_compliance_status 85 = "Compliant" ∧
  ETL.score_moisture ETL.default_business_rules (Samples.record 21.0) 100
    = Ok (100 - 5) ∧
  ETL._calculate_quality_score ETL.default_business_rules (Samples.record 21.0)
    = Ok 95 ∧
  ETL._categorize_quality 95 = "Excellent" ∧
  Unified._get_compliance_status 95 = "Compliant" ∧
  ETL._apply_business_rules ETL.default_business_rules
    (Samples.frame [Samples.record 22.0; Samples.record 21.0])
    = Ok (Samples.frame []).
Proof. repeat split; vm_compute; reflexivity. Qed.

(** C5, as the specification has it, fails: the record with moisture 22.0
    does not score 95 and is not "Excellent". *)
Lemma moisture_22_not_95 :
  ETL._calculate_quality_score ETL.default_business_rules (Samples.record 22.0)
    ≠ Ok 95 ∧
  (∀ s, ETL._calculate_quality_score ETL.default_business_rules
          (Samples.record 22.0) = Ok s →
        ETL._categorize_quality s ≠ "Excellent").
Proof.
  assert (H : ETL._calculate_quality_score ETL.default_business_rules
                (Samples.record 22.0) = Ok 85) by (vm_compute; reflexivity).
  rewrite H. split.
  - intros E.
    apply (f_equal (λ o, match o with Ok x => (90 <= x)%py | Raise _ => false end))
      in E.
    vm_compute in E. discriminate E.
  - intros s E. injection E as <-. vm_compute. discriminate.
Qed.

End Validation.

(** ** Running statements *)

(** Running the monad's connectives. *)
Lemma bind_run {A B : Type} (m : M A) (f : A → M B) (w : World) :
  (m ≫= f) w = match m w with
               | (Ok a, w') => f a w'
               | (Raise e, w') => (Raise e, w')
               end.
Proof. reflexivity. Qed.

Lemma try_run {A : Type} (body : M A) (handler : string → M A) (w : World) :
  try_except body handler w = match body w with
                              | (Ok a, w') => (Ok a, w')
                              | (Raise e, w') => handler e w'
                              end.
Proof. reflexivity. Qed.

Lemma now_run (env : Env) (w : World) :
  now env w = (Ok (wall env (ticks w)), after (now env) w).
Proof. reflexivity. Qed.

Lemma logger_info_run (m : string) (a : LogArg) (w : World) :
  logger_info m a w = (Ok tt, after (logger_info m a) w).
Proof. reflexivity. Qed.

Lemma logger_error_run (m : string) (a : LogArg) (w : World) :
  logger_error m a w = (Ok tt, after (logger_error m a) w).
Proof. reflexivity. Qed.

Lemma mret_run {A : Type} (a : A) (w : World) : (mret a : M A) w = (Ok a, w).
Proof. reflexivity. Qed.

Lemma pure_run {A : Type} (x : exc A) (w : World) : pure x w = (x, w).
Proof. reflexivity. Qed.

Ltac run :=
  repeat first
    [ rewrite bind_run | rewrite try_run | rewrite now_run
    | rewrite logger_info_run | rewrite logger_error_run | rewrite mret_run
    | rewrite pure_run | progress cbv beta iota ].

(** ** The pipeline *)

Section Pipeline.
Variable env : Env.
Variable self : Processor.Self.

(** [load_data] has its own [except]: it never raises. *)
Lemma load_data_total (data : ETL.ScoredFrame) (table_name : string) (w : World) :
  ∃ b w', Processor.load_data env self data table_name w = (Ok b, w').
Proof.
  unfold Processor.load_data, try_except.
  match goal with |- context [match ?m w with _ => _ end] => destruct (m w) as [[b|e] w'] end.
  - eauto.
  - simpl. eauto.
Qed.

(** The outcome of a run, stage by stage. *)
Lemma run_etl_pipeline_outcome (source_path table_name : string) (w : World) :
  let w1 := after (logger_info "Starting data extraction..." NoArg)
              (after (now env) w) in
  ∃ result w',
    Processor.run_etl_pipeline env self source_path table_name w = (Ok result, w') ∧
    duration_seconds result
      = Processor.total_seconds (wall env (ticks w)) (timestamp result) ∧
    match Processor.extract_data env source_path w1 with
    | (Raise e, _) => status result = "failed" ∧ error result = Some e
    | (Ok data, w2) =>
        match Processor.transform_data env self data
                (after (logger_info "Starting data transformation..." NoArg) w2) with
        | (Raise e, _) => status result = "failed" ∧ error result = Some e
        | (Ok transformed_data, w3) =>
            ∃ load_success w4,
              Processor.load_data env self transformed_data table_name
                (after (logger_info "Starting data loading..." NoArg) w3)
                = (Ok load_success, w4) ∧
              status result = (if load_success : bool then "success" else "failed") ∧
              error result = None ∧
              rows_processed result = Some (length (ETL.srows transformed_data))
        end
    end.
Proof.
  intros w1. subst w1.
  unfold Processor.run_etl_pipeline. run.
  destruct (Processor.extract_data env source_path _) as [[data|e] w2].
  - run.
    destruct (Processor.transform_data env self data _) as [[td|e] w3].
    + run.
      match goal with
      | |- context [Processor.load_data env self td table_name ?w] =>
          destruct (load_data_total td table_name w) as (b & w4 & E3)
      end.
      rewrite E3. run.
      eexists _, _. split; [reflexivity|]. split; [reflexivity|].
      eexists _, _. split; [reflexivity|]. simpl. auto.
    + run. eexists _, _. split; [reflexivity|]. simpl. auto.
  - run. eexists _, _. split; [reflexivity|]. simpl. auto.
Qed.

(** [load_data] answers [True] exactly when the collaborators accepted
    the frame. *)
Lemma load_data_answer (data : ETL.ScoredFrame) (table_name : string) (w : World) :
  ∃ w', Processor.load_data env self data table_name w
        = (Ok (Inputs.load_accepted self data table_name), w').
Proof.
  unfold Processor.load_data, Inputs.load_accepted.
  destruct (Processor.db_engine self) as [engine|]; run; [|eauto].
  unfold Processor.to_sql.
  destruct (Processor.to_sql_raises engine table_name data); run; [eauto|].
  destruct (Processor.redis_client self) as [client|]; run; [|eauto].
  unfold Processor.setex.
  destruct (Processor.setex_raises client _); run; eauto.
Qed.

(** When the database write raises, [load_data] logs the message and
    answers [False]; nothing else changes. *)
Lemma load_data_write_raises data table_name engine e w :
  Processor.db_engine self = Some engine →
  Processor.to_sql_raises engine table_name data = Some e →
  Processor.load_data env self data table_name w
    = (Ok false, after (logger_error ("Data loading failed: " +:+ e) NoArg) w).
Proof.
  intros Hdb Hsql. unfold Processor.load_data. rewrite Hdb. run.
  unfold Processor.to_sql. rewrite Hsql. run. reflexivity.
Qed.

(** Without a database [load_data] logs that and answers [False]. *)
Lemma load_data_no_database data table_name w :
  Processor.db_engine self = None →
  Processor.load_data env self data table_name w
    = (Ok false, after (logger_error "Database not available" NoArg) w).
Proof.
  intros Hdb. unfold Processor.load_data. rewrite Hdb. run. reflexivity.
Qed.

Lemma total_seconds_pos (t0 t1 : Z) :
  (0 < Processor.total_seconds t0 t1)%Q ↔ (t0 < t1)%Z.
Proof. unfold Processor.total_seconds, Qlt. simpl. lia. Qed.

Lemma load_accepted_iff (data : ETL.ScoredFrame) (table_name : string) :
  Inputs.load_accepted self data table_name = true
  ↔ Inputs.load_failure_message self data table_name = None.
Proof.
  unfold Inputs.load_accepted, Inputs.load_failure_message.
  destruct (Processor.db_engine self) as [engine|]; [|split; discriminate].
  destruct (Processor.to_sql_raises engine table_name data); [split; discriminate|].
  destruct (Processor.redis_client self) as [client|]; [|split; reflexivity].
  destruct (Processor.setex_raises client _); split; try discriminate; reflexivity.
Qed.

(** What [load_data] adds to the log: one record, the error message when
    the frame was not accepted and the success line when it was.  The clock
    is read at most once and never set back. *)
Lemma load_data_log (data : ETL.ScoredFrame) (table_name : string) (w : World) :
  ∃ w', Processor.load_data env self data table_name w
        = (Ok (Inputs.load_accepted self data table_name), w') ∧
        log w' = log w ++
                 [match Inputs.load_failure_message self data table_name with
                  | Some m => {| level := "ERROR"; msg := m; arg := NoArg |}
                  | None => {| level := "INFO"; msg := "Data loaded successfully to ";
                               arg := LoadedArg table_name (length (ETL.srows data)) |}
                  end] ∧
        (ticks w ≤ ticks w')%nat.
Proof.
  unfold Processor.load_data, Inputs.load_accepted, Inputs.load_failure_message.
  destruct (Processor.db_engine self) as [engine|]; run;
    [|eexists; repeat split; simpl; auto].
  unfold Processor.to_sql.
  destruct (Processor.to_sql_raises engine table_name data); run;
    [eexists; repeat split; simpl; auto|].
  destruct (Processor.redis_client self) as [client|]; run;
    [|eexists; repeat split; simpl; auto].
  unfold Processor.setex.
  destruct (Processor.setex_raises client _); run;
    eexists; repeat split; simpl; auto.
Qed.

(** The stages never set the clock back: extraction does not read it,
    transformation and loading read it at most once. *)
Lemma extract_data_ticks (source_path : string) (w : World) :
  ticks (Processor.extract_data env source_path w).2 = ticks w.
Proof.
  unfold Processor.extract_data. run.
  destruct (endswith source_path ".csv");
    [|destruct (endswith source_path ".xlsx")]; run; unfold raise;
    try (destruct (read_csv env source_path));
    try (destruct (read_excel env source_path)); run; reflexivity.
Qed.

Lemma transform_data_ticks (data : ETL.DataFrame) (w : World) :
  (ticks w ≤ ticks (Processor.transform_data env self data w).2)%nat.
Proof.
  unfold Processor.transform_data. run.
  destruct (ETL.dropna _ data) as [d0|]; run; [|simpl; lia].
  destruct (ETL._apply_business_rules _ d0) as [d1|]; run; [|simpl; lia].
  destruct (mapM _ (ETL.rows d1)) as [scores|]; run; simpl; lia.
Qed.

(** The instant a run reports is its last clock reading, taken after the
    first one. *)
Lemma run_etl_pipeline_clock (source_path table_name : string) (w : World) :
  ∃ result w',
    Processor.run_etl_pipeline env self source_path table_name w = (Ok result, w') ∧
    timestamp result = wall env (Nat.pred (ticks w')) ∧
    (ticks w < Nat.pred (ticks w'))%nat.
Proof.
  unfold Processor.run_etl_pipeline. run.
  pose proof (extract_data_ticks source_path
                (after (logger_info "Starting data extraction..." NoArg)
                   (after (now env) w))) as T1.
  destruct (Processor.extract_data env source_path _) as [[data|e] w2].
  - run.
    pose proof (transform_data_ticks data
                  (after (logger_info "Starting data transformation..." NoArg) w2))
      as T2.
    destruct (Processor.transform_data env self data _) as [[td|e] w3].
    + run.
      match goal with
      | |- context [Processor.load_data env self td table_name ?w0] =>
          destruct (load_data_log td table_name w0) as (w4 & E3 & _ & T3)
      end.
      rewrite E3. run.
      eexists _, _. split; [reflexivity|]. simpl in *. split; [reflexivity | lia].
    + run. eexists _, _. split; [reflexivity|]. simpl in *.
      split; [reflexivity | lia].
  - run. eexists _, _. split; [reflexivity|]. simpl in *.
    split; [reflexivity | lia].
Qed.

(** The log of a run that got as far as loading. *)
Lemma run_etl_pipeline_load_log
    (source_path table_name : string) (w w2 w3 : World)
    (data : ETL.DataFrame) (transformed_data : ETL.ScoredFrame) :
  Processor.extract_data env source_path
    (after (logger_info "Starting data extraction..." NoArg) (after (now env) w))
    = (Ok data, w2) →
  Processor.transform_data env self data
    (after (logger_info "Starting data transformation..." NoArg) w2)
    = (Ok transformed_data, w3) →
  ∃ result w',
    Processor.run_etl_pipeline env self source_path table_name w = (Ok result, w') ∧
    log w' = log w3 ++
             [{| level := "INFO"; msg := "Starting data loading..."; arg := NoArg |};
              match Inputs.load_failure_message self transformed_data table_name with
              | Some m => {| level := "ERROR"; msg := m; arg := NoArg |}
              | None => {| level := "INFO"; msg := "Data loaded successfully to ";
                           arg := LoadedArg table_name
                                    (length (ETL.srows transformed_data)) |}
              end;
              {| level := "INFO"; msg := "ETL pipeline completed: ";
                 arg := ResultArg result |}].
Proof.
  intros He Ht. unfold Processor.run_etl_pipeline. run. rewrite He. run.
  rewrite Ht. run.
  match goal with
  | |- context [Processor.load_data env self transformed_data table_name ?w0] =>
      destruct (load_data_log transformed_data table_name w0) as (w4 & E3 & L & _)
  end.
  rewrite E3. run. eexists _, _. split; [reflexivity|]. simpl.
  rewrite L. simpl. rewrite <- !app_assoc. reflexivity.
Qed.

(** Two descriptions of one run speak of the same outcome. *)
Lemma run_unique {source_path table_name : string} {w : World}
    {r1 r2 : Result} {w1 w2 : World} :
  Processor.run_etl_pipeline env self source_path table_name w = (Ok r1, w1) →
  Processor.run_etl_pipeline env self source_path table_name w = (Ok r2, w2) →
  r1 = r2 ∧ w1 = w2.
Proof. intros H1 H2. rewrite H1 in H2. injection H2 as <- <-. auto. Qed.

(** C2, as the code has it: a run never raises; it always returns an
    outcome whose status is "success" or "failed", whose instant is the
    last reading of the wall clock taken during the run and whose duration
    is the time from the first reading to that last one.  An exception
    raised by extraction or by transformation is caught by the run and
    returned as the outcome's error message with status "failed".  A
    failure of loading never reaches the run as an exception: [load_data]
    writes the message to the log and answers [False], and the outcome has
    status "failed", the row count, and no error message. *)
Theorem run_etl_pipeline_returns_outcome (source_path table_name : string) (w : World) :
  let w1 := after (logger_info "Starting data extraction..." NoArg)
              (after (now env) w) in
  ∃ result w',
    Processor.run_etl_pipeline env self source_path table_name w = (Ok result, w') ∧
    (status result = "success" ∨ status result = "failed") ∧
    timestamp result = wall env (Nat.pred (ticks w')) ∧
    (ticks w < Nat.pred (ticks w'))%nat ∧
    duration_seconds result
      = Processor.total_seconds (wall env (ticks w))
          (wall env (Nat.pred (ticks w'))) ∧
    match Processor.extract_data env source_path w1 with
    | (Raise e, _) => status result = "failed" ∧ error result = Some e
    | (Ok data, w2) =>
        match Processor.transform_data env self data
                (after (logger_info "Starting data transformation..." NoArg) w2) with
        | (Raise e, _) => status result = "failed" ∧ error result = Some e
        | (Ok transformed_data, w3) =>
            (∃ w4,
               Processor.load_data env self transformed_data table_name
                 (after (logger_info "Starting data loading..." NoArg) w3)
               = (Ok (Inputs.load_accepted self transformed_data table_name), w4)) ∧
            status result
              = (if Inputs.load_accepted self transformed_data table_name
                 then "success" else "failed") ∧
            error result = None ∧
            rows_processed result = Some (length (ETL.srows transformed_data)) ∧
            (Inputs.load_accepted self transformed_data table_name = false →
             ∃ m, Inputs.load_failure_message self transformed_data table_name
                  = Some m ∧
                  log w' = log w3 ++
                    [{| level := "INFO"; msg := "Starting data loading...";
                        arg := NoArg |};
                     {| level := "ERROR"; msg := m; arg := NoArg |};
                     {| level := "INFO"; msg := "ETL pipeline completed: ";
                        arg := ResultArg result |}])
        end
    end.
Proof.
  intros w1.
  destruct (run_etl_pipeline_outcome source_path table_name w)
    as (result & w' & Hrun & Hd & Hst).
  destruct (run_etl_pipeline_clock source_path table_name w)
    as (r2 & w2' & Hrun2 & Hts & Hlt).
  destruct (run_unique Hrun Hrun2) as [<- <-].
  exists result, w'. split; [exact Hrun|].
  fold w1 in Hst.
  assert (Hdur : duration_seconds result
                 = Processor.total_seconds (wall env (ticks w))
                     (wall env (Nat.pred (ticks w')))).
  { rewrite Hd, Hts. reflexivity. }
  destruct (Processor.extract_data env source_path w1) as [[data|e] w2] eqn:E1;
    [|repeat split; try assumption; try apply Hst; right; apply Hst].
  destruct (Processor.transform_data env self data _) as [[td|e] w3] eqn:E2;
    [|repeat split; try assumption; try apply Hst; right; apply Hst].
  destruct Hst as (b & w4 & Hl & Hs & Herr & Hn).
  match type of Hl with
  | Processor.load_data env self ?d ?t ?w0 = _ =>
      destruct (load_data_answer d t w0) as [w4' Hl']
  end.
  rewrite Hl' in Hl. injection Hl as <- <-.
  split; [rewrite Hs; destruct (Inputs.load_accepted self td table_name); auto|].
  repeat split; try assumption; [eexists; exact Hl'|].
  intros Hf.
  destruct (run_etl_pipeline_load_log source_path table_name w w2 w3 data td E1 E2)
    as (r3 & w3' & Hrun3 & Hlog).
  destruct (run_unique Hrun Hrun3) as [<- <-].
  destruct (Inputs.load_failure_message self td table_name) as [m|] eqn:Em.
  - exists m. split; [reflexivity | exact Hlog].
  - apply load_accepted_iff in Em. rewrite Em in Hf. discriminate Hf.
Qed.

(** C6, as the code has it: when extraction and transformation succeed
    and loading fails ([load_data] answers [False]: no database, the write
    raised, or the cache raised), the run returns an outcome with status
    "failed", the number of transformed rows and no error message.  The
    original message is not lost altogether: [load_data] writes it to the
    log, where the run leaves it.  The outcome's instant is the last
    reading of the wall clock taken during the run, the duration is the
    time from the first reading to it, and on a wall clock that advances
    from one reading to the next the duration is greater than zero. *)
Theorem load_failure_outcome
    (source_path table_name : string) (w w2 w3 w4 : World)
    (data : ETL.DataFrame) (transformed_data : ETL.ScoredFrame) :
  let w1 := after (logger_info "Starting data extraction..." NoArg)
              (after (now env) w) in
  let w3' := after (logger_info "Starting data loading..." NoArg) w3 in
  Processor.extract_data env source_path w1 = (Ok data, w2) →
  Processor.transform_data env self data
    (after (logger_info "Starting data transformation..." NoArg) w2)
    = (Ok transformed_data, w3) →
  Processor.load_data env self transformed_data table_name w3' = (Ok false, w4) →
  ∃ result w',
    Processor.run_etl_pipeline env self source_path table_name w = (Ok result, w') ∧
    status result = "failed" ∧
    error result = None ∧
    rows_processed result = Some (length (ETL.srows transformed_data)) ∧
    timestamp result = wall env (Nat.pred (ticks w')) ∧
    (ticks w < Nat.pred (ticks w'))%nat ∧
    duration_seconds result
      = Processor.total_seconds (wall env (ticks w))
          (wall env (Nat.pred (ticks w'))) ∧
    (Inputs.strictly_increasing (wall env) → (0 < duration_seconds result)%Q) ∧
    (∃ m, Inputs.load_failure_message self transformed_data table_name = Some m ∧
          log w4 = log w3' ++ [{| level := "ERROR"; msg := m; arg := NoArg |}] ∧
          log w' = log w4 ++ [{| level := "INFO"; msg := "ETL pipeline completed: ";
                                 arg := ResultArg result |}]).
Proof.
  intros w1 w3' He Ht Hl.
  destruct (run_etl_pipeline_outcome source_path table_name w)
    as (result & w' & Hrun & Hd & Hst).
  destruct (run_etl_pipeline_clock source_path table_name w)
    as (r2 & w2' & Hrun2 & Hts & Hlt).
  destruct (run_unique Hrun Hrun2) as [<- <-].
  destruct (run_etl_pipeline_load_log source_path table_name w w2 w3 data
              transformed_data He Ht) as (r3 & w3'' & Hrun3 & Hlog).
  destruct (run_unique Hrun Hrun3) as [<- <-].
  fold w1 in Hst. rewrite He, Ht in Hst. fold w3' in Hst.
  destruct Hst as (b & w4' & Hl' & Hs & Herr & Hn).
  rewrite Hl in Hl'. injection Hl' as <- <-.
  destruct (load_data_log transformed_data table_name w3') as (w4' & Hla & Hll & _).
  rewrite Hl in Hla. injection Hla as Hacc <-.
  assert (Hdur : duration_seconds result
                 = Processor.total_seconds (wall env (ticks w))
                     (wall env (Nat.pred (ticks w')))).
  { rewrite Hd, Hts. reflexivity. }
  exists result, w'. repeat split; try assumption.
  - intros Hmono. rewrite Hdur. apply total_seconds_pos, Hmono, Hlt.
  - destruct (Inputs.load_failure_message self transformed_data table_name)
      as [m|] eqn:Em.
    + exists m. split; [reflexivity|]. split; [exact Hll|].
      rewrite Hlog, Hll. subst w3'. simpl. rewrite <- !app_assoc. reflexivity.
    + apply load_accepted_iff in Em. rewrite Em in Hacc. discriminate Hacc.
Qed.

(** *** Runs over an empty frame *)

Lemma dropna_empty (cols : list string) :
  Inputs.scorable ⊆ cols →
  ETL.dropna Inputs.scorable (Samples.empty_frame cols)
    = Ok (Samples.empty_frame cols).
Proof.
  intros Hs. unfold ETL.dropna, Inputs.scorable in *. simpl.
  rewrite !filter_cons, filter_nil.
  repeat case_decide; try reflexivity;
    match goal with H : _ ∉ cols |- _ => exfalso; apply H, Hs; set_solver end.
Qed.

Lemma column_present (cols : list string) (rs : list Series) (c : string) :
  Inputs.scorable ⊆ cols → c ∈ Inputs.scorable →
  ETL.column {| ETL.columns := cols; ETL.rows := rs |} c = Ok tt.
Proof.
  intros Hs Hc. unfold ETL.column. simpl.
  rewrite bool_decide_eq_true_2; [reflexivity | apply Hs, Hc].
Qed.

Ltac empty_block Hs Hk :=
  match goal with
  | |- context [contains ?p ?rules] =>
      destruct (contains p rules) eqn:C; [|reflexivity];
      rewrite (column_present _ _ p Hs) by (unfold Inputs.scorable; set_solver);
      cbn [mbind exc_bind];
      apply contains_true in C as [? C];
      unfold Inputs.has_keys in Hk; rewrite C in Hk; simpl in Hk;
      unfold ETL.rule, getitem; rewrite C; cbn [mbind exc_bind];
      repeat (apply andb_prop in Hk as [[? ->]%contains_true Hk];
              cbn [mbind exc_bind]);
      reflexivity
  end.

Lemma apply_business_rules_empty (rules : ETL.Rules) (cols : list string) :
  Inputs.scorable ⊆ cols → Inputs.complete rules = true →
  ETL._apply_business_rules rules (Samples.empty_frame cols)
    = Ok (Samples.empty_frame cols).
Proof.
  intros Hs Hc. unfold Inputs.complete in Hc.
  apply andb_prop in Hc as [Hc K4]. apply andb_prop in Hc as [Hc K3].
  apply andb_prop in Hc as [K1 K2].
  unfold ETL._apply_business_rules, Samples.empty_frame.
  assert (E1 : ETL.validate_moisture rules {| ETL.columns := cols; ETL.rows := [] |}
               = Ok {| ETL.columns := cols; ETL.rows := [] |}).
  { unfold ETL.validate_moisture. empty_block Hs K1. }
  assert (E2 : ETL.validate_ph rules {| ETL.columns := cols; ETL.rows := [] |}
               = Ok {| ETL.columns := cols; ETL.rows := [] |}).
  { unfold ETL.validate_ph. empty_block Hs K2. }
  assert (E3 : ETL.validate_diastase rules {| ETL.columns := cols; ETL.rows := [] |}
               = Ok {| ETL.columns := cols; ETL.rows := [] |}).
  { unfold ETL.validate_diastase. empty_block Hs K3. }
  assert (E4 : ETL.validate_hmf rules {| ETL.columns := cols; ETL.rows := [] |}
               = Ok {| ETL.columns := cols; ETL.rows := [] |}).
  { unfold ETL.validate_hmf. empty_block Hs K4. }
  rewrite E1. cbn [mbind exc_bind]. rewrite E2. cbn [mbind exc_bind].
  rewrite E3. cbn [mbind exc_bind]. rewrite E4. reflexivity.
Qed.

(** Transformation of an empty frame that has the scorable columns, under
    a complete rule set: no rows, the three derived columns, one clock
    reading, one log record. *)
Lemma transform_data_empty (cols : list string) (w : World) :
  Inputs.scorable ⊆ cols → Inputs.complete (Processor.business_rules self) = true →
  ∃ w', Processor.transform_data env self (Samples.empty_frame cols) w
        = (Ok (Samples.empty_scored cols), w').
Proof.
  intros Hs Hc. unfold Processor.transform_data. run.
  change ["moisture"; "ph"; "diastase_activity"; "h_m_f"] with Inputs.scorable.
  rewrite (dropna_empty cols Hs). run.
  rewrite (apply_business_rules_empty _ cols Hs Hc). run.
  simpl. run. eexists. reflexivity.
Qed.

(** The outcome of a run over an empty frame. *)
Lemma empty_run_status
    (source_path table_name : string) (cols : list string) (w w2 : World) :
  Processor.extract_data env source_path
    (after (logger_info "Starting data extraction..." NoArg) (after (now env) w))
    = (Ok (Samples.empty_frame cols), w2) →
  Inputs.scorable ⊆ cols →
  Inputs.complete (Processor.business_rules self) = true →
  ∃ result w',
    Processor.run_etl_pipeline env self source_path table_name w = (Ok result, w') ∧
    error result = None ∧
    rows_processed result = Some 0 ∧
    status result
      = (if Inputs.load_accepted self (Samples.empty_scored cols) table_name
         then "success" else "failed").
Proof.
  intros He Hs Hc.
  destruct (run_etl_pipeline_outcome source_path table_name w)
    as (result & w' & Hrun & Hd & Hst).
  cbv zeta in Hst. rewrite He in Hst.
  match type of Hst with
  | context [Processor.transform_data env self _ ?w0] =>
      destruct (transform_data_empty cols w0 Hs Hc) as [w3 Ht]
  end.
  rewrite Ht in Hst. destruct Hst as (b & w4 & Hl & Hstat & Herr & Hn).
  match type of Hl with
  | Processor.load_data env self ?d ?t ?w0 = _ =>
      destruct (load_data_answer d t w0) as [w4' Hl']
  end.
  rewrite Hl' in Hl. injection Hl as <- <-.
  exists result, w'. auto.
Qed.

(** C7: a run over an empty input (zero records in a frame that has the
    scorable columns, rules complete, load collaborators accepting the
    frame) completes with status "success" and without error message; zero
    records came in and the outcome's count of accepted records,
    [rows_processed], is zero. *)
Theorem empty_run_completes
    (source_path table_name : string) (cols : list string) (w w2 : World) :
  let w1 := after (logger_info "Starting data extraction..." NoArg)
              (after (now env) w) in
  Processor.extract_data env source_path w1 = (Ok (Samples.empty_frame cols), w2) →
  Inputs.scorable ⊆ cols →
  Inputs.complete (Processor.business_rules self) = true →
  Inputs.load_accepted self (Samples.empty_scored cols) table_name = true →
  ∃ result w',
    Processor.run_etl_pipeline env self source_path table_name w = (Ok result, w') ∧
    status result = "success" ∧
    error result = None ∧
    length (ETL.rows (Samples.empty_frame cols)) = 0%nat ∧
    rows_processed result = Some 0%nat.
Proof.
  intros w1 He Hs Hc Ha.
  destruct (empty_run_status source_path table_name cols w w2 He Hs Hc)
    as (result & w' & Hrun & Herr & Hn & Hst).
  rewrite Ha in Hst. exists result, w'. repeat split; assumption.
Qed.

End Pipeline.

(** *** Concrete runs *)

Section Runs.
Import Samples.
Local Open Scope float_scope.

Lemma increasing_clock (data : exc ETL.DataFrame) :
  Inputs.strictly_increasing (wall (env_reading data)).
Proof. intros i j Hij. simpl. lia. Qed.

Lemma load_failure_outcome_witness :
  ∃ result w',
    Processor.run_etl_pipeline
      (env_reading (Ok (frame [record 17.0])))
      (processor (Some (refusing "connection refused")) None)
      "honey.csv" "honey_quality_data" Processor.world0 = (Ok result, w') ∧
    status result = "failed" ∧ error result = None ∧
    rows_processed result = Some 1%nat ∧
    (0 < duration_seconds result)%Q ∧
    {| level := "ERROR"; msg := "Data loading failed: connection refused";
       arg := NoArg |} ∈ log w'.
Proof.
  edestruct (load_failure_outcome
               (env_reading (Ok (frame [record 17.0])))
               (processor (Some (refusing "connection refused")) None)
               "honey.csv" "honey_quality_data" Processor.world0)
    as (result & w' & Hrun & Hs & He & Hn & _ & _ & _ & Hpos & m & Hm & Hl4 & Hl);
    [vm_compute; reflexivity .. |].
  exists result, w'. repeat split; try assumption.
  - apply Hpos, increasing_clock.
  - vm_compute in Hm. injection Hm as <-. rewrite Hl, Hl4.
    apply elem_of_app; left. apply elem_of_app; right.
    apply list_elem_of_here.
Defined.

Lemma empty_run_completes_witness :
  ∃ result w',
    Processor.run_etl_pipeline
      (env_reading (Ok (empty_frame Inputs.scorable)))
      (processor (Some accepting) None)
      "honey.csv" "honey_quality_data" Processor.world0 = (Ok result, w') ∧
    status result = "success" ∧ rows_processed result = Some 0%nat.
Proof.
  edestruct (empty_run_completes
               (env_reading (Ok (empty_frame Inputs.scorable)))
               (processor (Some accepting) None)
               "honey.csv" "honey_quality_data" Inputs.scorable Processor.world0)
    as (result & w' & Hrun & Hs & He & _ & Hn);
    [vm_compute; reflexivity | intros c Hc; exact Hc | vm_compute; reflexivity
    | vm_compute; reflexivity |].
  exists result, w'. auto.
Defined.

(** C2, as the specification has it, fails: here the cache refuses the
    metadata, so the load stage fails with "redis timeout"; the outcome
    is a failure without any error message, and the log has it. *)
Lemma cache_failure_message_not_in_outcome :
  ∃ result,
    outcome (env_reading (Ok (frame [record 17.0])))
      (processor (Some accepting) (Some (cache_down "redis timeout")))
      "honey.csv" "honey_quality_data" = Ok result ∧
    status result = "failed" ∧ error result = None ∧
    {| level := "ERROR"; msg := "Data loading failed: redis timeout"; arg := NoArg |}
      ∈ log_of (env_reading (Ok (frame [record 17.0])))
          (processor (Some accepting) (Some (cache_down "redis timeout")))
          "honey.csv" "honey_quality_data".
Proof.
  eexists. split; [vm_compute; reflexivity|].
  split; [reflexivity|]. split; [reflexivity|].
  vm_compute. repeat (first [apply list_elem_of_here | apply list_elem_of_further]).
Qed.

(** C6, as the specification has it, fails on both counts.  The write
    raises "connection refused" and the failure outcome does not preserve
    that message; and on a wall clock whose readings coincide the same run
    reports a duration of zero. *)
Lemma write_failure_message_not_preserved :
  (∃ result,
     outcome (env_reading (Ok (frame [record 17.0])))
       (processor (Some (refusing "connection refused")) None)
       "honey.csv" "honey_quality_data" = Ok result ∧
     status result = "failed" ∧
     error result ≠ Some "connection refused") ∧
  (∃ result,
     outcome (env_stalled (Ok (frame [record 17.0])))
       (processor (Some (refusing "connection refused")) None)
       "honey.csv" "honey_quality_data" = Ok result ∧
     status result = "failed" ∧
     ¬ (0 < duration_seconds result)%Q).
Proof.
  split.
  - eexists. split; [vm_compute; reflexivity|].
    split; [reflexivity | discriminate].
  - eexists. split; [vm_compute; reflexivity|].
    split; [reflexivity|]. simpl. intros H. vm_compute in H. discriminate H.
Qed.

End Runs.

(** ** Alerts *)

Section Alerts.
Local Open Scope float_scope.
Variable env : Env.

(** C8: with both metrics observed, the CPU check fires exactly one
    event when the observed value is strictly above its ceiling of 80 and
    none otherwise, and the memory check does the same for its ceiling of
    85; nothing else is emitted, every event carries a value above its
    ceiling, and a value equal to the ceiling fires nothing. *)
Theorem alert_iff_strictly_above (cpu mem : float) (w : World) :
  PSUTIL_AVAILABLE env = true →
  cpu_percent env = Ok cpu →
  virtual_memory_percent env = Ok mem →
  ∃ alerts w',
    Monitoring._check_performance_alerts env w = (Ok alerts, w') ∧
    length (List.filter (Monitoring.about "High CPU usage: ") alerts)
      = (if (cpu > 80)%py then 1 else 0)%nat ∧
    length (List.filter (Monitoring.about "High memory usage: ") alerts)
      = (if (mem > 85)%py then 1 else 0)%nat ∧
    length alerts
      = ((if (cpu > 80)%py then 1 else 0) + (if (mem > 85)%py then 1 else 0))%nat ∧
    (∀ a, a ∈ alerts →
          (observed (message a)
           > (if Monitoring.about "High CPU usage: " a then 80 else 85))%py = true) ∧
    (cpu = 80 → List.filter (Monitoring.about "High CPU usage: ") alerts = []) ∧
    (mem = 85 → List.filter (Monitoring.about "High memory usage: ") alerts = []).
Proof.
  intros Hp Hc Hm. unfold Monitoring._check_performance_alerts.
  rewrite Hp, Hc, Hm. run.
  destruct (cpu > 80)%py eqn:Ec; destruct (mem > 85)%py eqn:Em;
    do 3 (run; rewrite ?Ec, ?Em);
    (eexists _, _; split; [reflexivity|]);
    repeat split; try reflexivity;
    try (intros a Ha; simpl in Ha;
         repeat match goal with
                | H : _ ∈ _ :: _ |- _ => apply elem_of_cons in H as [-> | H]
                | H : _ ∈ [] |- _ => apply elem_of_nil in H; destruct H
                end; simpl; assumption);
    try (intros ->; vm_compute in Ec; discriminate Ec);
    try (intros ->; vm_compute in Em; discriminate Em).
Qed.

End Alerts.

Lemma alert_iff_strictly_above_witness :
  ∃ alerts w',
    Monitoring._check_performance_alerts
      (Samples.env_observing 80%float (next_up 85%float)) Processor.world0
      = (Ok alerts, w') ∧
    List.filter (Monitoring.about "High CPU usage: ") alerts = [] ∧
    length (List.filter (Monitoring.about "High memory usage: ") alerts) = 1%nat ∧
    length alerts = 1%nat.
Proof.
  destruct (alert_iff_strictly_above
              (Samples.env_observing 80%float (next_up 85%float))
              80%float (next_up 85%float) Processor.world0
              eq_refl eq_refl eq_refl)
    as (alerts & w' & Hrun & _ & Hm & Hl & _ & Hc & _).
  exists alerts, w'. split; [exact Hrun|]. split; [exact (Hc eq_refl)|].
  split; [exact Hm | exact Hl].
Defined.

(** ** Further properties of the scorers and classifiers *)

Section Scorers.
Local Open Scope float_scope.

Lemma default_rule_values :
  contains "moisture" ETL.default_business_rules = true ∧
  contains "ph" ETL.default_business_rules = true ∧
  contains "diastase_activity" ETL.default_business_rules = true ∧
  contains "h_m_f" ETL.default_business_rules = true ∧
  ETL.rule ETL.default_business_rules "moisture" "min" = Ok 15 ∧
  ETL.rule ETL.default_business_rules "moisture" "max" = Ok 20 ∧
  ETL.rule ETL.default_business_rules "ph" "min" = Ok 3.5 ∧
  ETL.rule ETL.default_business_rules "ph" "max" = Ok 6.5 ∧
  ETL.rule ETL.default_business_rules "diastase_activity" "min" = Ok 8 ∧
  ETL.rule ETL.default_business_rules "h_m_f" "max" = Ok 40.
Proof. repeat split; vm_compute; reflexivity. Qed.

(** The sample scorer of the PowerBI integration is the rule-driven scorer
    of the ETL processor under the built-in rule set: same score on every
    row, same [KeyError] on a row that lacks a field. *)
Theorem sample_scorer_is_default_etl_scorer (row : Series) :
  Integration._calculate_sample_quality_score row
  = ETL._calculate_quality_score ETL.default_business_rules row.
Proof.
  destruct default_rule_values
    as (C1 & C2 & C3 & C4 & R1 & R2 & R3 & R4 & R5 & R6).
  unfold Integration._calculate_sample_quality_score,
    ETL._calculate_quality_score, ETL.raw_quality_score,
    ETL.score_moisture, ETL.score_ph, ETL.score_diastase, ETL.score_hmf.
  rewrite C1, C2, C3, C4, R1, R2, R3, R4, R5, R6.
  unfold getitem.
  destruct (row !! "moisture") as [m|]; [|reflexivity].
  destruct (row !! "ph") as [p|]; [|reflexivity].
  destruct (row !! "diastase_activity") as [a|]; [|reflexivity].
  destruct (row !! "h_m_f") as [h|]; reflexivity.
Qed.

(** The two category functions agree except that the unified generator
    splits "Excellent" at 95 into "Premium" and "Excellent". *)
Theorem etl_category_of_unified_category (score : float) :
  ETL._categorize_quality score
  = (if String.eqb (Unified._categorize_quality score) "Premium"
     then "Excellent" else Unified._categorize_quality score).
Proof.
  unfold ETL._categorize_quality, Unified._categorize_quality.
  pose proof (ge_95_90 score) as H.
  destruct (score >= 95)%py; [rewrite (H eq_refl); reflexivity|].
  destruct (score >= 90)%py; [reflexivity|].
  destruct (score >= 80)%py; [reflexivity|].
  destruct (score >= 70)%py; reflexivity.
Qed.

(** A parameter without a rule is unconstrained for the scorer: whatever
    the record holds for it, or whether it holds anything, the score is the
    same. *)
Theorem unruled_parameter_is_ignored
    (rules : ETL.Rules) (row : Series) (p : string) (v : float) :
  p ∈ Inputs.scorable → rules !! p = None →
  ETL._calculate_quality_score rules (<[p := v]> row)
    = ETL._calculate_quality_score rules row ∧
  ETL._calculate_quality_score rules (delete p row)
    = ETL._calculate_quality_score rules row.
Proof.
  intros Hp Hr.
  assert (Hc : contains p rules = false).
  { unfold contains. rewrite Hr. apply bool_decide_eq_false_2. intros [? ?]. discriminate. }
  unfold Inputs.scorable in Hp.
  unfold ETL._calculate_quality_score, ETL.raw_quality_score,
    ETL.score_moisture, ETL.score_ph, ETL.score_diastase, ETL.score_hmf, getitem.
  repeat (apply elem_of_cons in Hp as [-> | Hp]);
    [| | | |apply elem_of_nil in Hp; destruct Hp];
    rewrite Hc; rewrite ?lookup_insert_ne, ?lookup_delete_ne by discriminate;
    split; reflexivity.
Qed.

Lemma unruled_parameter_is_ignored_witness :
  ETL._calculate_quality_score {[ "ph" := {[ "min" := 3.5; "max" := 6.5 ]} ]}
    (<["moisture" := 99]> (Samples.record 17)) = Ok 100.
Proof.
  rewrite (proj1 (unruled_parameter_is_ignored
                    {[ "ph" := {[ "min" := 3.5; "max" := 6.5 ]} ]}
                    (Samples.record 17) "moisture" 99
                    ltac:(unfold Inputs.scorable; apply list_elem_of_here)
                    ltac:(vm_compute; reflexivity))).
  vm_compute. reflexivity.
Defined.

Lemma ltb_leb (x y : float) : (x < y)%py = true → (x <= y)%py = true.
Proof.
  rewrite ltb_spec, leb_spec. unfold SFltb, SFleb.
  destruct (SFcompare (Prim2SF x) (Prim2SF y)) as [[| |]|]; congruence.
Qed.

(** The sample generators draw moisture from [[15, 20)], pH from
    [[3.5, 6.5)], diastase activity from [[8, 15)] and HMF from [[20, 40)].
    Every record in these ranges gets 100 from the sample scorer and is
    "Excellent": the scored sample data shows no variation. *)
Theorem sampled_records_score_100 (row : Series) (m p a h : float) :
  row !! "moisture" = Some m → row !! "ph" = Some p →
  row !! "diastase_activity" = Some a → row !! "h_m_f" = Some h →
  (15.0 <= m)%py = true → (m < 20.0)%py = true →
  (3.5 <= p)%py = true → (p < 6.5)%py = true →
  (8.0 <= a)%py = true → (a < 15.0)%py = true →
  (20.0 <= h)%py = true → (h < 40.0)%py = true →
  Integration._calculate_sample_quality_score row = Ok 100 ∧
  Integration._categorize_sample_quality 100 = "Excellent".
Proof.
  intros Hm Hp Ha Hh M1 M2%ltb_leb P1 P2%ltb_leb A1 _ _ H2%ltb_leb.
  unfold Integration._calculate_sample_quality_score, getitem, Py.ge.
  rewrite Hm, Hp, Ha, Hh. cbn [mbind exc_bind].
  rewrite M1, M2, P1, P2, A1, H2. split; reflexivity.
Qed.

Lemma sampled_records_score_100_witness :
  Integration._calculate_sample_quality_score (Samples.record 17) = Ok 100.
Proof.
  refine (proj1 (sampled_records_score_100 (Samples.record 17) 17 5 10 20
                   _ _ _ _ _ _ _ _ _ _ _ _)); vm_compute; reflexivity.
Defined.

End Scorers.

(** ** Further properties of validation *)

Section Validator.
Local Open Scope float_scope.

Lemma filter_all {A : Type} (P : A → Prop) `{∀ x, Decision (P x)} (l : list A) :
  (∀ x, x ∈ l → P x) → filter P l = l.
Proof.
  induction l as [|x l IH]; intros Hall; [reflexivity|].
  rewrite filter_cons_True by (apply Hall, list_elem_of_here).
  f_equal. apply IH. intros y Hy. apply Hall, list_elem_of_further, Hy.
Qed.

Lemma narrows_refl data : Inputs.narrows data data.
Proof. split; reflexivity. Qed.

Lemma narrows_trans d1 d2 d3 : Inputs.narrows d1 d2 → Inputs.narrows d2 d3 → Inputs.narrows d1 d3.
Proof.
  intros [C1 S1] [C2 S2]. split; [congruence|]. etransitivity; eassumption.
Qed.

Lemma narrows_select keep data : Inputs.narrows data (ETL.select keep data).
Proof.
  split; [reflexivity|]. unfold ETL.select. simpl.
  apply (sublist_filter (λ r, keep r = true)).
Qed.

Ltac narrowing H :=
  destruct (contains _ _); [|injection H as <-; apply narrows_refl];
  unfold ETL.column in H;
  destruct (bool_decide _); cbn [mbind exc_bind] in H; [|discriminate H];
  unfold ETL.rule, getitem in H;
  repeat match type of H with
         | context [match ?o with Some _ => _ | None => _ end] =>
             destruct o; cbn [mbind exc_bind] in H; try discriminate H
         end;
  injection H as <-; apply narrows_select.

Lemma validate_moisture_narrows rules data data' :
  ETL.validate_moisture rules data = Ok data' → Inputs.narrows data data'.
Proof. unfold ETL.validate_moisture. intros H. narrowing H. Qed.

Lemma validate_ph_narrows rules data data' :
  ETL.validate_ph rules data = Ok data' → Inputs.narrows data data'.
Proof. unfold ETL.validate_ph. intros H. narrowing H. Qed.

Lemma validate_diastase_narrows rules data data' :
  ETL.validate_diastase rules data = Ok data' → Inputs.narrows data data'.
Proof. unfold ETL.validate_diastase. intros H. narrowing H. Qed.

Lemma validate_hmf_narrows rules data data' :
  ETL.validate_hmf rules data = Ok data' → Inputs.narrows data data'.
Proof. unfold ETL.validate_hmf. intros H. narrowing H. Qed.

Ltac blocks H :=
  unfold ETL._apply_business_rules in H;
  destruct (ETL.validate_moisture _ _) as [d1|] eqn:E1;
    cbn [mbind exc_bind] in H; [|discriminate H];
  destruct (ETL.validate_ph _ d1) as [d2|] eqn:E2;
    cbn [mbind exc_bind] in H; [|discriminate H];
  destruct (ETL.validate_diastase _ d2) as [d3|] eqn:E3;
    cbn [mbind exc_bind] in H; [|discriminate H];
  destruct (ETL.validate_hmf _ d3) as [d4|] eqn:E4;
    cbn [mbind exc_bind] in H; [|discriminate H];
  injection H as <-.

Lemma apply_business_rules_narrows rules data data' :
  ETL._apply_business_rules rules data = Ok data' → Inputs.narrows data data'.
Proof.
  intros H. blocks H.
  eapply narrows_trans; [eapply validate_moisture_narrows, E1|].
  eapply narrows_trans; [eapply validate_ph_narrows, E2|].
  eapply narrows_trans; [eapply validate_diastase_narrows, E3|].
  eapply validate_hmf_narrows, E4.
Qed.

(** Validation only ever removes rows: the column index is untouched, the
    surviving rows are a subsequence of the input rows (same order, no
    row changed or added), so there are at most as many. *)
Theorem validation_only_removes_rows (rules : ETL.Rules) (data data' : ETL.DataFrame) :
  ETL._apply_business_rules rules data = Ok data' →
  ETL.columns data' = ETL.columns data ∧
  ETL.rows data' `sublist_of` ETL.rows data ∧
  length (ETL.rows data') ≤ length (ETL.rows data).
Proof.
  intros H. destruct (apply_business_rules_narrows rules data data' H) as [C S].
  split; [exact C|]. split; [exact S|]. apply sublist_length, S.
Qed.

Lemma validation_only_removes_rows_witness :
  ETL.rows (Samples.frame [Samples.record 17])
    `sublist_of` ETL.rows (Samples.frame [Samples.record 30; Samples.record 17]).
Proof.
  refine (proj1 (proj2 (validation_only_removes_rows ETL.default_business_rules
                          (Samples.frame [Samples.record 30; Samples.record 17])
                          (Samples.frame [Samples.record 17]) _))).
  vm_compute. reflexivity.
Defined.

Lemma select_fixed keep (data data'' : ETL.DataFrame) :
  (∀ r, r ∈ ETL.rows data'' → r ∈ ETL.rows (ETL.select keep data)) →
  ETL.select keep data'' = data''.
Proof.
  intros Hall. destruct data'' as [cols rs]. unfold ETL.select. simpl in *.
  f_equal. apply (filter_all (λ r, keep r = true)).
  intros r Hr. apply Hall in Hr.
  apply (list_elem_of_filter (λ r, keep r = true)) in Hr. apply Hr.
Qed.

Ltac again H Hc Hall :=
  destruct (contains _ _); [|reflexivity];
  unfold ETL.column in *; rewrite Hc;
  destruct (bool_decide _); cbn [mbind exc_bind] in H |- *; [|discriminate H];
  unfold ETL.rule, getitem in *;
  repeat match type of H with
         | context [match ?o with Some _ => _ | None => _ end] =>
             destruct o; cbn [mbind exc_bind] in H |- *; try discriminate H
         end;
  injection H as <-; f_equal; eapply select_fixed; exact Hall.

Lemma validate_moisture_again rules data data' data'' :
  ETL.validate_moisture rules data = Ok data' →
  ETL.columns data'' = ETL.columns data →
  (∀ r, r ∈ ETL.rows data'' → r ∈ ETL.rows data') →
  ETL.validate_moisture rules data'' = Ok data''.
Proof. unfold ETL.validate_moisture. intros H Hc Hall. again H Hc Hall. Qed.

Lemma validate_ph_again rules data data' data'' :
  ETL.validate_ph rules data = Ok data' →
  ETL.columns data'' = ETL.columns data →
  (∀ r, r ∈ ETL.rows data'' → r ∈ ETL.rows data') →
  ETL.validate_ph rules data'' = Ok data''.
Proof. unfold ETL.validate_ph. intros H Hc Hall. again H Hc Hall. Qed.

Lemma validate_diastase_again rules data data' data'' :
  ETL.validate_diastase rules data = Ok data' →
  ETL.columns data'' = ETL.columns data →
  (∀ r, r ∈ ETL.rows data'' → r ∈ ETL.rows data') →
  ETL.validate_diastase rules data'' = Ok data''.
Proof. unfold ETL.validate_diastase. intros H Hc Hall. again H Hc Hall. Qed.

Lemma validate_hmf_again rules data data' data'' :
  ETL.validate_hmf rules data = Ok data' →
  ETL.columns data'' = ETL.columns data →
  (∀ r, r ∈ ETL.rows data'' → r ∈ ETL.rows data') →
  ETL.validate_hmf rules data'' = Ok data''.
Proof. unfold ETL.validate_hmf. intros H Hc Hall. again H Hc Hall. Qed.

Lemma narrows_elem data data' r :
  Inputs.narrows data data' → r ∈ ETL.rows data' → r ∈ ETL.rows data.
Proof. intros [_ S] Hr. eapply elem_of_sublist; eassumption. Qed.

(** Validation is idempotent: validating an already validated frame under
    the same rules succeeds and changes nothing. *)
Theorem validation_idempotent (rules : ETL.Rules) (data data' : ETL.DataFrame) :
  ETL._apply_business_rules rules data = Ok data' →
  ETL._apply_business_rules rules data' = Ok data'.
Proof.
  intros H. blocks H.
  pose proof (validate_moisture_narrows _ _ _ E1) as N1.
  pose proof (validate_ph_narrows _ _ _ E2) as N2.
  pose proof (validate_diastase_narrows _ _ _ E3) as N3.
  pose proof (validate_hmf_narrows _ _ _ E4) as N4.
  unfold ETL._apply_business_rules.
  rewrite (validate_moisture_again rules data d1 d4 E1);
    [|destruct N1, N2, N3, N4; congruence
     |intros r Hr; eauto using narrows_elem].
  cbn [mbind exc_bind].
  rewrite (validate_ph_again rules d1 d2 d4 E2);
    [|destruct N1, N2, N3, N4; congruence
     |intros r Hr; eauto using narrows_elem].
  cbn [mbind exc_bind].
  rewrite (validate_diastase_again rules d2 d3 d4 E3);
    [|destruct N1, N2, N3, N4; congruence
     |intros r Hr; eauto using narrows_elem].
  cbn [mbind exc_bind].
  rewrite (validate_hmf_again rules d3 d4 d4 E4);
    [reflexivity | destruct N4; congruence | auto].
Qed.

Lemma validation_idempotent_witness :
  ETL._apply_business_rules ETL.default_business_rules
    (Samples.frame [Samples.record 17]) = Ok (Samples.frame [Samples.record 17]).
Proof.
  refine (validation_idempotent ETL.default_business_rules
            (Samples.frame [Samples.record 30; Samples.record 17])
            (Samples.frame [Samples.record 17]) _).
  vm_compute. reflexivity.
Defined.

End Validator.

(** ** Further properties of the stages *)

Section Stages.
Local Open Scope float_scope.
Variable env : Env.
Variable self : Processor.Self.

Lemma mapM_constant {A : Type} (f : A → exc float) (c : float) (l : list A) :
  (∀ x, x ∈ l → f x = Ok c) → mapM f l = Ok (map (λ _, c) l).
Proof.
  induction l as [|x l IH]; intros Hall; [reflexivity|].
  simpl. rewrite (Hall x) by apply list_elem_of_here.
  cbn [mbind exc_bind]. rewrite IH; [reflexivity|].
  intros y Hy. apply Hall, list_elem_of_further, Hy.
Qed.

Lemma scored_rows_constant (t : Z) (c : float) (l : list Series) :
  zip_with (λ r sc, {| ETL.fields := r; ETL.quality_score := sc.1;
                       ETL.quality_category := sc.2; ETL.processed_at := t |})
    l (zip (map (λ _, c) l) (map ETL._categorize_quality (map (λ _, c) l)))
  = map (λ r, {| ETL.fields := r; ETL.quality_score := c;
                 ETL.quality_category := ETL._categorize_quality c;
                 ETL.processed_at := t |}) l.
Proof. induction l as [|x l IH]; [reflexivity|]. simpl. f_equal. exact IH. Qed.

Lemma isna_nan : isna nan = true.
Proof. reflexivity. Qed.

(** What [dropna] keeps has a number in each of the listed columns. *)
Lemma dropna_keeps subset data data' r c :
  ETL.dropna subset data = Ok data' → r ∈ ETL.rows data' → c ∈ subset →
  r ∈ ETL.rows data ∧ ∃ v, r !! c = Some v ∧ isna v = false.
Proof.
  unfold ETL.dropna. destruct (filter _ subset); [|discriminate].
  intros H Hr Hc. injection H as <-.
  apply elem_of_select in Hr as [Hk Hr]. split; [exact Hr|].
  rewrite forallb_forall in Hk. apply list_elem_of_In in Hc.
  specialize (Hk c Hc). unfold ETL.cell in Hk.
  destruct (r !! c) as [v|].
  - exists v. split; [reflexivity|]. simpl in Hk.
    destruct (isna v); [discriminate Hk | reflexivity].
  - change (default nan None) with nan in Hk. rewrite isna_nan in Hk.
    discriminate Hk.
Qed.

(** Every row that [transform_data] puts out is an input row that has a
    number for each scorable parameter; its [quality_score] is 100 and its
    [quality_category] "Excellent", whatever the rules are; all rows carry
    the one [processed_at] instant read during the call; and there are at
    most as many rows as came in. *)
Theorem transform_data_rows
    (data : ETL.DataFrame) (transformed_data : ETL.ScoredFrame) (w w' : World) :
  Processor.transform_data env self data w = (Ok transformed_data, w') →
  (∀ sr, sr ∈ ETL.srows transformed_data →
     ETL.fields sr ∈ ETL.rows data ∧
     (∀ c, c ∈ Inputs.scorable →
           ∃ v, ETL.fields sr !! c = Some v ∧ isna v = false) ∧
     ETL.quality_score sr = 100 ∧
     ETL.quality_category sr = "Excellent" ∧
     ETL.processed_at sr = wall env (ticks w)) ∧
  length (ETL.srows transformed_data) ≤ length (ETL.rows data).
Proof.
  unfold Processor.transform_data. run.
  change ["moisture"; "ph"; "diastase_activity"; "h_m_f"] with Inputs.scorable.
  destruct (ETL.dropna Inputs.scorable data) as [d0|] eqn:E0; run;
    [|discriminate].
  destruct (ETL._apply_business_rules _ d0) as [d1|] eqn:E1; run;
    [|discriminate].
  rewrite (mapM_constant _ 100 (ETL.rows d1))
    by (intros r Hr; apply (validated_row _ _ _ _ E1 Hr)).
  run. rewrite scored_rows_constant.
  intros H. injection H as <- _. simpl. split.
  - intros sr Hsr. apply list_elem_of_fmap in Hsr as (r & -> & Hr). simpl.
    destruct (validated_row _ _ _ _ E1 Hr) as [Hr0 _].
    split; [apply (dropna_keeps _ _ _ r "moisture" E0 Hr0);
            unfold Inputs.scorable; apply list_elem_of_here|].
    split; [intros c Hc; apply (dropna_keeps _ _ _ r c E0 Hr0 Hc)|].
    repeat split; reflexivity.
  - rewrite length_map.
    destruct (apply_business_rules_narrows _ _ _ E1) as [_ L1%sublist_length].
    assert (L0 : length (ETL.rows d0) ≤ length (ETL.rows data)).
    { unfold ETL.dropna in E0. destruct (filter _ Inputs.scorable); [|discriminate].
      injection E0 as <-. simpl. apply length_filter. }
    lia.
Qed.

(** [load_data] never raises.  It answers [True] exactly when the
    collaborators accepted the frame; the table has the frame's rows
    appended as soon as the database write went through, whatever happens
    to the cache afterwards, and is untouched otherwise. *)
Theorem load_data_effect (data : ETL.ScoredFrame) (table_name : string) (w : World) :
  ∃ w',
    Processor.load_data env self data table_name w
      = (Ok (Inputs.load_accepted self data table_name), w') ∧
    tables w'
      = match Processor.db_engine self with
        | Some engine =>
            match Processor.to_sql_raises engine table_name data with
            | None => <[table_name := default [] (tables w !! table_name)
                                        ++ ETL.srows data]> (tables w)
            | Some _ => tables w
            end
        | None => tables w
        end ∧
    alerts w' = alerts w.
Proof.
  unfold Processor.load_data, Inputs.load_accepted.
  destruct (Processor.db_engine self) as [engine|]; run;
    [|eexists; repeat split; reflexivity].
  unfold Processor.to_sql.
  destruct (Processor.to_sql_raises engine table_name data); run;
    [eexists; repeat split; reflexivity|].
  destruct (Processor.redis_client self) as [client|]; run;
    [|eexists; repeat split; reflexivity].
  unfold Processor.setex.
  destruct (Processor.setex_raises client _); run;
    eexists; repeat split; reflexivity.
Qed.

(** A failing cache makes [load_data] answer [False] after the rows have
    been written: the table holds them (a second attempt would append them
    again), nothing is cached, and the cause is in the log. *)
Theorem load_data_cache_failure_after_write
    (data : ETL.ScoredFrame) (table_name : string) (w : World)
    (engine : Processor.Engine) (client : Processor.Redis) (e : string) :
  Processor.db_engine self = Some engine →
  Processor.to_sql_raises engine table_name data = None →
  Processor.redis_client self = Some client →
  Processor.setex_raises client ("table_metadata:" +:+ table_name) = Some e →
  ∃ w',
    Processor.load_data env self data table_name w = (Ok false, w') ∧
    tables w' !! table_name
      = Some (default [] (tables w !! table_name) ++ ETL.srows data) ∧
    cache w' = cache w ∧
    log w' = log w ++ [{| level := "ERROR";
                          msg := "Data loading failed: " +:+ e;
                          arg := NoArg |}].
Proof.
  intros Hdb Hsql Hr Hset. unfold Processor.load_data.
  rewrite Hdb, Hr. run. unfold Processor.to_sql. rewrite Hsql. run.
  unfold Processor.setex. rewrite Hset. run.
  eexists. split; [reflexivity|]. simpl.
  split; [apply lookup_insert_eq|]. split; reflexivity.
Qed.

(** A path that ends neither in [.csv] nor in [.xlsx] is refused before
    anything is read: the run returns "failed" with the message naming the
    path, and neither the database nor the cache is touched. *)
Theorem unsupported_format_fails (source_path table_name : string) (w : World) :
  endswith source_path ".csv" = false →
  endswith source_path ".xlsx" = false →
  ∃ result w',
    Processor.run_etl_pipeline env self source_path table_name w = (Ok result, w') ∧
    status result = "failed" ∧
    error result = Some ("Unsupported file format: " +:+ source_path) ∧
    rows_processed result = None ∧
    tables w' = tables w ∧ cache w' = cache w.
Proof.
  intros Hc Hx. unfold Processor.run_etl_pipeline, Processor.extract_data.
  rewrite Hc, Hx. run. unfold raise. run.
  eexists _, _. split; [reflexivity|]. repeat split; reflexivity.
Qed.

(** When pandas cannot read a [.csv] source, the run returns "failed" with
    the reader's message unchanged; the message is logged twice, by the
    extraction stage and by the run; the database and the cache are not
    touched. *)
Theorem reader_failure_is_reported
    (source_path table_name : string) (w : World) (e : string) :
  endswith source_path ".csv" = true →
  read_csv env source_path = Raise e →
  ∃ result w',
    Processor.run_etl_pipeline env self source_path table_name w = (Ok result, w') ∧
    status result = "failed" ∧ error result = Some e ∧
    log w' = log w ++
             [{| level := "INFO"; msg := "Starting data extraction..."; arg := NoArg |};
              {| level := "ERROR"; msg := "Data extraction failed: " +:+ e;
                 arg := NoArg |};
              {| level := "ERROR"; msg := "ETL pipeline failed: ";
                 arg := ResultArg result |}] ∧
    tables w' = tables w ∧ cache w' = cache w.
Proof.
  intros Hc Hr. unfold Processor.run_etl_pipeline, Processor.extract_data.
  rewrite Hc, Hr. run. unfold raise. run.
  eexists _, _. split; [reflexivity|]. simpl.
  rewrite <- !app_assoc. repeat split; reflexivity.
Qed.

(** A frame that lacks scorable columns is refused by the cleaning step:
    [transform_data] raises the [KeyError] that lists the missing columns
    in the order moisture, ph, diastase_activity, h_m_f, after logging it. *)
Theorem transform_data_missing_columns
    (data : ETL.DataFrame) (w : World) (c : string) (missing : list string) :
  filter (λ c, c ∉ ETL.columns data) Inputs.scorable = c :: missing →
  Processor.transform_data env self data w
    = (Raise (repr_list (c :: missing)),
       after (logger_error ("Data transformation failed: "
                            +:+ repr_list (c :: missing)) NoArg) w).
Proof.
  intros Hm. unfold Processor.transform_data. run.
  unfold ETL.dropna.
  change ["moisture"; "ph"; "diastase_activity"; "h_m_f"] with Inputs.scorable.
  rewrite Hm. run. reflexivity.
Qed.

(** A run reports "success" exactly when extraction and transformation
    return and the load collaborators accept the transformed frame.  The
    outcome comes in two shapes: with an error message and no row count
    (an exception was caught), or with a row count and no error message. *)
Theorem run_success_iff (source_path table_name : string) (w : World) :
  let w1 := after (logger_info "Starting data extraction..." NoArg)
              (after (now env) w) in
  ∃ result w',
    Processor.run_etl_pipeline env self source_path table_name w = (Ok result, w') ∧
    (status result = "success" ↔
       ∃ data w2 transformed_data w3,
         Processor.extract_data env source_path w1 = (Ok data, w2) ∧
         Processor.transform_data env self data
           (after (logger_info "Starting data transformation..." NoArg) w2)
           = (Ok transformed_data, w3) ∧
         Inputs.load_accepted self transformed_data table_name = true) ∧
    (error result = None ↔ is_Some (rows_processed result)) ∧
    (is_Some (error result) → status result = "failed").
Proof.
  intros w1. subst w1.
  unfold Processor.run_etl_pipeline. run.
  destruct (Processor.extract_data env source_path _) as [[data|e] w2] eqn:E1.
  - run.
    destruct (Processor.transform_data env self data _) as [[td|e] w3] eqn:E2.
    + run.
      match goal with
      | |- context [Processor.load_data env self td table_name ?w0] =>
          destruct (load_data_answer env self td table_name w0) as [w4 E3]
      end.
      rewrite E3. run.
      eexists _, _. split; [reflexivity|]. simpl. split; [|split].
      * split.
        -- intros H. exists data, w2, td, w3.
           repeat split; try reflexivity; try assumption.
           destruct (Inputs.load_accepted self td table_name);
             [reflexivity | discriminate H].
        -- intros (? & ? & ? & ? & [= <- <-] & Ht & Ha).
           rewrite E2 in Ht. injection Ht as <- <-. rewrite Ha. reflexivity.
      * split; eauto.
      * intros [? ?]. discriminate.
    + run. eexists _, _. split; [reflexivity|]. simpl. split; [|split].
      * split; [discriminate|].
        intros (? & ? & ? & ? & [= <- <-] & Ht & _).
        rewrite E2 in Ht. discriminate Ht.
      * split; [discriminate | intros [? ?]; discriminate].
      * auto.
  - run. eexists _, _. split; [reflexivity|]. simpl. split; [|split].
    + split; [discriminate|]. intros (? & ? & ? & ? & ? & _). discriminate.
    + split; [discriminate | intros [? ?]; discriminate].
    + auto.
Qed.

End Stages.

(** ** Incomplete rules *)

Section Completeness.
Local Open Scope float_scope.

Lemma contains_lookup {V : Type} (k : string) (d : gmap string V) :
  contains k d = bool_decide (is_Some (d !! k)).
Proof. reflexivity. Qed.

Lemma contains_Some {V : Type} (k : string) (d : gmap string V) (v : V) :
  d !! k = Some v → contains k d = true.
Proof. intros H. unfold contains. rewrite H. apply bool_decide_eq_true_2. eauto. Qed.

Lemma contains_None {V : Type} (k : string) (d : gmap string V) :
  d !! k = None → contains k d = false.
Proof.
  intros H. unfold contains. rewrite H. apply bool_decide_eq_false_2.
  intros [? ?]. discriminate.
Qed.

(** A block that returns has found the bounds it reads. *)
Ltac found H :=
  unfold Inputs.has_keys;
  match type of H with
  | context [contains ?p ?rules] =>
      let C := fresh "C" in
      destruct (contains p rules) eqn:C;
      [apply contains_true in C as [? C]; rewrite C
      |rewrite (contains_false p rules C); reflexivity];
      unfold ETL.column in H;
      destruct (bool_decide _); cbn [mbind exc_bind] in H; [|discriminate H];
      unfold ETL.rule, getitem in H; rewrite C in H; cbn [mbind exc_bind] in H
  end;
  simpl;
  repeat match type of H with
         | context [match ?r !! ?k with Some _ => _ | None => _ end] =>
             destruct (r !! k) eqn:?; cbn [mbind exc_bind] in H;
             [|discriminate H]
         end;
  erewrite !contains_Some by eassumption; reflexivity.

Lemma validate_moisture_found rules data data' :
  ETL.validate_moisture rules data = Ok data' →
  Inputs.has_keys rules "moisture" ["min"; "max"] = true.
Proof. unfold ETL.validate_moisture. intros H. found H. Qed.

Lemma validate_ph_found rules data data' :
  ETL.validate_ph rules data = Ok data' →
  Inputs.has_keys rules "ph" ["min"; "max"] = true.
Proof. unfold ETL.validate_ph. intros H. found H. Qed.

Lemma validate_diastase_found rules data data' :
  ETL.validate_diastase rules data = Ok data' →
  Inputs.has_keys rules "diastase_activity" ["min"] = true.
Proof. unfold ETL.validate_diastase. intros H. found H. Qed.

Lemma validate_hmf_found rules data data' :
  ETL.validate_hmf rules data = Ok data' →
  Inputs.has_keys rules "h_m_f" ["max"] = true.
Proof. unfold ETL.validate_hmf. intros H. found H. Qed.

(** A block whose bounds are there returns on a frame that has the
    columns. *)
Ltac returns Hs Hk :=
  match goal with
  | |- context [contains ?p ?rules] =>
      destruct (contains p rules) eqn:C; [|eauto];
      unfold ETL.column;
      rewrite bool_decide_eq_true_2
        by (apply Hs; unfold Inputs.scorable; set_solver);
      cbn [mbind exc_bind];
      apply contains_true in C as [? C];
      unfold Inputs.has_keys in Hk; rewrite C in Hk; simpl in Hk;
      unfold ETL.rule, getitem; rewrite C; cbn [mbind exc_bind];
      repeat (apply andb_prop in Hk as [[? ->]%contains_true Hk];
              cbn [mbind exc_bind]);
      eauto
  end.

Lemma validate_moisture_total rules data :
  Inputs.scorable ⊆ ETL.columns data →
  Inputs.has_keys rules "moisture" ["min"; "max"] = true →
  ∃ data', ETL.validate_moisture rules data = Ok data'.
Proof. intros Hs Hk. unfold ETL.validate_moisture. returns Hs Hk. Qed.

Lemma validate_ph_total rules data :
  Inputs.scorable ⊆ ETL.columns data →
  Inputs.has_keys rules "ph" ["min"; "max"] = true →
  ∃ data', ETL.validate_ph rules data = Ok data'.
Proof. intros Hs Hk. unfold ETL.validate_ph. returns Hs Hk. Qed.

Lemma validate_diastase_total rules data :
  Inputs.scorable ⊆ ETL.columns data →
  Inputs.has_keys rules "diastase_activity" ["min"] = true →
  ∃ data', ETL.validate_diastase rules data = Ok data'.
Proof. intros Hs Hk. unfold ETL.validate_diastase. returns Hs Hk. Qed.

Lemma validate_hmf_total rules data :
  Inputs.scorable ⊆ ETL.columns data →
  Inputs.has_keys rules "h_m_f" ["max"] = true →
  ∃ data', ETL.validate_hmf rules data = Ok data'.
Proof. intros Hs Hk. unfold ETL.validate_hmf. returns Hs Hk. Qed.

(** On a frame that has the scorable columns, validation returns exactly
    when every rule present has the bounds the code reads of it; a rule
    with a bound left out is not read as unbounded on that side, it makes
    validation raise [KeyError]. *)
Theorem validation_returns_iff_complete (rules : ETL.Rules) (data : ETL.DataFrame) :
  Inputs.scorable ⊆ ETL.columns data →
  (∃ data', ETL._apply_business_rules rules data = Ok data')
    ↔ Inputs.complete rules = true.
Proof.
  intros Hs. unfold Inputs.complete. split.
  - intros [data' H]. unfold ETL._apply_business_rules in H.
    destruct (ETL.validate_moisture _ _) as [d1|] eqn:E1;
      cbn [mbind exc_bind] in H; [|discriminate H].
    destruct (ETL.validate_ph _ d1) as [d2|] eqn:E2;
      cbn [mbind exc_bind] in H; [|discriminate H].
    destruct (ETL.validate_diastase _ d2) as [d3|] eqn:E3;
      cbn [mbind exc_bind] in H; [|discriminate H].
    destruct (ETL.validate_hmf _ d3) as [d4|] eqn:E4;
      cbn [mbind exc_bind] in H; [|discriminate H].
    rewrite (validate_moisture_found _ _ _ E1), (validate_ph_found _ _ _ E2),
      (validate_diastase_found _ _ _ E3), (validate_hmf_found _ _ _ E4).
    reflexivity.
  - intros Hc.
    apply andb_prop in Hc as [Hc K4]. apply andb_prop in Hc as [Hc K3].
    apply andb_prop in Hc as [K1 K2].
    unfold ETL._apply_business_rules.
    destruct (validate_moisture_total rules data Hs K1) as [d1 E1].
    rewrite E1. cbn [mbind exc_bind].
    pose proof (validate_moisture_narrows _ _ _ E1) as [C1 _].
    rewrite <- C1 in Hs.
    destruct (validate_ph_total rules d1 Hs K2) as [d2 E2].
    rewrite E2. cbn [mbind exc_bind].
    pose proof (validate_ph_narrows _ _ _ E2) as [C2 _].
    rewrite <- C2 in Hs.
    destruct (validate_diastase_total rules d2 Hs K3) as [d3 E3].
    rewrite E3. cbn [mbind exc_bind].
    pose proof (validate_diastase_narrows _ _ _ E3) as [C3 _].
    rewrite <- C3 in Hs.
    destruct (validate_hmf_total rules d3 Hs K4) as [d4 E4].
    rewrite E4. cbn [mbind exc_bind]. eauto.
Qed.

End Completeness.

(** ** The demo's report *)

Section Report.
Variable env : Env.
Variable self : Processor.Self.

(** What [run_demo] prints about a run: the exception's message when
    extraction or transformation raised, and "Unknown error" when loading
    failed, since that outcome has no error message. *)
Theorem demo_report_of_run (source_path table_name : string) (w : World) :
  let w1 := after (logger_info "Starting data extraction..." NoArg)
              (after (now env) w) in
  ∃ result w',
    Processor.run_etl_pipeline env self source_path table_name w = (Ok result, w') ∧
    Demo.etl_report result
    = match Processor.extract_data env source_path w1 with
      | (Raise e, _) => "ETL pipeline failed: " +:+ e
      | (Ok data, w2) =>
          match Processor.transform_data env self data
                  (after (logger_info "Starting data transformation..." NoArg) w2) with
          | (Raise e, _) => "ETL pipeline failed: " +:+ e
          | (Ok transformed_data, _) =>
              if Inputs.load_accepted self transformed_data table_name
              then "ETL pipeline completed successfully"
              else "ETL pipeline failed: Unknown error"
          end
      end.
Proof.
  intros w1. subst w1.
  unfold Processor.run_etl_pipeline. run.
  destruct (Processor.extract_data env source_path _) as [[data|e] w2].
  - run.
    destruct (Processor.transform_data env self data _) as [[td|e] w3].
    + run.
      match goal with
      | |- context [Processor.load_data env self td table_name ?w0] =>
          destruct (load_data_answer env self td table_name w0) as [w4 E3]
      end.
      rewrite E3. run.
      eexists _, _. split; [reflexivity|].
      destruct (Inputs.load_accepted self td table_name); reflexivity.
    + run. eexists _, _. split; reflexivity.
  - run. eexists _, _. split; reflexivity.
Qed.

End Report.

(** ** Further properties of alerting *)

Section Alerting.
Local Open Scope float_scope.
Variable env : Env.

(** The performance check never raises, whatever [psutil] does; it emits
    at most two alerts, each a warning about a value strictly above its
    ceiling; it does not touch the stored alerts, the database or the
    cache. *)
Lemma check_performance_alerts_total (w : World) :
  ∃ found w',
    Monitoring._check_performance_alerts env w = (Ok found, w') ∧
    length found ≤ 2 ∧ Forall Inputs.well_formed_alert found ∧
    alerts w' = alerts w ∧ tables w' = tables w ∧ cache w' = cache w.
Proof.
  unfold Monitoring._check_performance_alerts, Inputs.well_formed_alert.
  destruct (PSUTIL_AVAILABLE env); run;
    [|eexists _, _; split; [reflexivity|]; simpl; repeat split; auto; lia].
  destruct (cpu_percent env) as [cpu|e]; run;
    [|eexists _, _; split; [reflexivity|]; simpl; repeat split; auto; lia].
  destruct (cpu > 80)%py eqn:Ec; run;
    (destruct (virtual_memory_percent env) as [mem|e]; run;
     [destruct (mem > 85)%py eqn:Em; run|]);
    (eexists _, _; split; [reflexivity|]); simpl;
    (split; [lia|]); (split; [|repeat split; reflexivity]);
    repeat (apply Forall_cons; split;
            [split; [reflexivity|]; split; [reflexivity|]; simpl;
             first [left; split; [reflexivity | assumption]
                   |right; split; [reflexivity | assumption]]|]);
    apply Forall_nil; exact I.
Qed.

Lemma log_alerts_run (l : list Alert) (w : World) :
  Monitoring.log_alerts l w
  = (Ok tt,
     {| ticks := ticks w;
        log := log w ++ map (λ a, {| level := "WARNING"; msg := "Alert triggered: ";
                                     arg := MessageArg (message a) |}) l;
        tables := tables w; cache := cache w; alerts := alerts w |}).
Proof.
  revert w. induction l as [|a l IH]; intros w.
  - simpl. rewrite app_nil_r. destruct w; reflexivity.
  - simpl. rewrite bind_run. unfold logger_warning, logger at 1. cbv beta iota.
    rewrite IH. simpl. rewrite <- app_assoc. reflexivity.
Qed.

(** [check_alerts] never raises.  The alerts it returns are the ones of
    the performance check (none when performance metrics are not
    collected): at most two, each a warning about a breach; they are
    appended to the stored alerts and logged one by one, in order, as the
    last records of the log; the database and the cache are not touched. *)
Theorem check_alerts_effect (config : Monitoring.MonitoringConfig) (w : World) :
  ∃ found w',
    Monitoring.check_alerts env config w = (Ok found, w') ∧
    alerts w' = alerts w ++ found ∧
    length found ≤ 2 ∧
    Forall Inputs.well_formed_alert found ∧
    (Monitoring.collect_performance_metrics config = false → found = []) ∧
    (∃ earlier,
       log w' = earlier ++
                map (λ a, {| level := "WARNING"; msg := "Alert triggered: ";
                             arg := MessageArg (message a) |}) found) ∧
    tables w' = tables w ∧ cache w' = cache w.
Proof.
  unfold Monitoring.check_alerts, Monitoring._check_quality_alerts.
  assert (Hq : ∀ w0, (if Monitoring.collect_data_quality_metrics config
                      then try_except (mret [])
                             (λ e, logger_error
                                     ("Quality alert checking failed: " +:+ e) NoArg
                                   ≫= λ _, mret [])
                      else mret []) w0 = (Ok (@nil Alert), w0)).
  { intros w0. destruct (Monitoring.collect_data_quality_metrics config); reflexivity. }
  rewrite try_run, bind_run, Hq. cbv beta iota. rewrite try_run, bind_run.
  destruct (Monitoring.collect_performance_metrics config) eqn:Ep.
  - destruct (check_performance_alerts_total w)
      as (found & w1 & -> & Hlen & Hwf & Ha & Ht & Hc).
    cbv beta iota. rewrite bind_run. unfold Monitoring.store_alerts at 1.
    cbv beta iota. rewrite bind_run, log_alerts_run. cbv beta iota.
    rewrite mret_run. eexists _, _. split; [reflexivity|]. simpl.
    rewrite Ha, Ht, Hc.
    repeat split; auto; try discriminate; try (eexists; reflexivity).
  - rewrite mret_run. cbv beta iota. rewrite bind_run.
    unfold Monitoring.store_alerts at 1.
    cbv beta iota. rewrite bind_run, log_alerts_run. cbv beta iota.
    rewrite mret_run. eexists _, _. split; [reflexivity|]. simpl.
    rewrite !app_nil_r.
    repeat split; auto; try lia.
    exists (log w). rewrite app_nil_r. reflexivity.
Qed.

(** A failing probe costs only what it would have measured: when
    [psutil.virtual_memory] raises after a CPU breach, the CPU alert is
    still returned; when [psutil.cpu_percent] raises, nothing is returned
    and memory is not looked at.  Either way the error goes to the log. *)
Theorem probe_failure_is_contained (w : World) (e : string) :
  PSUTIL_AVAILABLE env = true →
  (∀ cpu, cpu_percent env = Ok cpu → (cpu > 80)%py = true →
          virtual_memory_percent env = Raise e →
          ∃ w', Monitoring._check_performance_alerts env w
                = (Ok [Monitoring.cpu_alert cpu (wall env (ticks w))], w') ∧
                log w' = log w ++ [{| level := "ERROR";
                                      msg := "Performance alert checking failed: " +:+ e;
                                      arg := NoArg |}]) ∧
  (cpu_percent env = Raise e →
   ∃ w', Monitoring._check_performance_alerts env w = (Ok [], w') ∧
         log w' = log w ++ [{| level := "ERROR";
                               msg := "Performance alert checking failed: " +:+ e;
                               arg := NoArg |}]).
Proof.
  intros Hp. unfold Monitoring._check_performance_alerts. rewrite Hp. split.
  - intros cpu Hc Hb Hm. rewrite Hc, Hm. run. rewrite Hb. run.
    eexists. split; reflexivity.
  - intros Hc. rewrite Hc. run. eexists. split; reflexivity.
Qed.

End Alerting.

(** ** Instances *)

Section Instances.
Import Samples.
Local Open Scope float_scope.

Lemma transform_data_rows_witness :
  ∃ transformed_data w',
    Processor.transform_data (env_reading (Raise "unused")) (processor None None)
      (frame [record 17; record 30]) Processor.world0 = (Ok transformed_data, w') ∧
    length (ETL.srows transformed_data) ≤ 2.
Proof.
  eassert (H : Processor.transform_data (env_reading (Raise "unused"))
                 (processor None None) (frame [record 17; record 30])
                 Processor.world0 = (Ok _, _)) by (vm_compute; reflexivity).
  eexists _, _. split; [exact H|].
  exact (proj2 (transform_data_rows _ _ _ _ _ _ H)).
Defined.

Lemma load_data_cache_failure_after_write_witness :
  ∃ w',
    Processor.load_data (env_reading (Raise "unused"))
      (processor (Some accepting) (Some (cache_down "redis timeout")))
      (empty_scored Inputs.scorable) "honey_quality_data" Processor.world0
    = (Ok false, w') ∧
    tables w' !! "honey_quality_data" = Some [].
Proof.
  destruct (load_data_cache_failure_after_write (env_reading (Raise "unused"))
              (processor (Some accepting) (Some (cache_down "redis timeout")))
              (empty_scored Inputs.scorable) "honey_quality_data" Processor.world0
              accepting (cache_down "redis timeout") "redis timeout"
              eq_refl eq_refl eq_refl eq_refl)
    as (w' & Hrun & Ht & _).
  exists w'. split; [exact Hrun | exact Ht].
Defined.

Lemma unsupported_format_fails_witness :
  ∃ result w',
    Processor.run_etl_pipeline (env_reading (Ok (frame [record 17])))
      (processor (Some accepting) None) "honey.CSV" "honey_quality_data"
      Processor.world0 = (Ok result, w') ∧
    error result = Some "Unsupported file format: honey.CSV".
Proof.
  destruct (unsupported_format_fails (env_reading (Ok (frame [record 17])))
              (processor (Some accepting) None) "honey.CSV" "honey_quality_data"
              Processor.world0 eq_refl eq_refl)
    as (result & w' & Hrun & _ & He & _).
  exists result, w'. split; [exact Hrun | exact He].
Defined.

Lemma reader_failure_is_reported_witness :
  ∃ result w',
    Processor.run_etl_pipeline (env_reading (Raise "No such file or directory"))
      (processor (Some accepting) None) "honey.csv" "honey_quality_data"
      Processor.world0 = (Ok result, w') ∧
    error result = Some "No such file or directory".
Proof.
  destruct (reader_failure_is_reported (env_reading (Raise "No such file or directory"))
              (processor (Some accepting) None) "honey.csv" "honey_quality_data"
              Processor.world0 "No such file or directory" eq_refl eq_refl)
    as (result & w' & Hrun & _ & He & _).
  exists result, w'. split; [exact Hrun | exact He].
Defined.

Lemma transform_data_missing_columns_witness :
  (Processor.transform_data (env_reading (Raise "unused")) (processor None None)
     {| ETL.columns := ["moisture"; "h_m_f"]; ETL.rows := [] |}
     Processor.world0).1
  = Raise "['ph', 'diastase_activity']".
Proof.
  rewrite (transform_data_missing_columns (env_reading (Raise "unused"))
             (processor None None)
             {| ETL.columns := ["moisture"; "h_m_f"]; ETL.rows := [] |}
             Processor.world0 "ph" ["diastase_activity"]
             ltac:(vm_compute; reflexivity)).
  reflexivity.
Defined.

Lemma validation_returns_iff_complete_witness :
  ¬ ∃ data', ETL._apply_business_rules {[ "moisture" := {[ "min" := 15.0 ]} ]}
               (frame [record 17]) = Ok data'.
Proof.
  intros H.
  apply (validation_returns_iff_complete {[ "moisture" := {[ "min" := 15.0 ]} ]}
           (frame [record 17]) ltac:(intros c Hc; exact Hc)) in H.
  vm_compute in H. discriminate H.
Defined.

Lemma probe_failure_is_contained_witness :
  ∃ w', Monitoring._check_performance_alerts
          (env_probing (Ok 93.5) (Raise "no such process")) Processor.world0
        = (Ok [Monitoring.cpu_alert 93.5 0], w').
Proof.
  destruct (proj1 (probe_failure_is_contained
                     (env_probing (Ok 93.5) (Raise "no such process"))
                     Processor.world0 "no such process" eq_refl)
              93.5 eq_refl eq_refl eq_refl) as (w' & Hrun & _).
  exists w'. exact Hrun.
Defined.

End Instances.
